(** * imagedata_format_pdf: the PDF format plugin, embedded and verified

    Shallow embedding of [src/imagedata_format_pdf/pdfplugin.py]
    (class [PDFPlugin]) and of the availability flag of
    [src/imagedata_format_pdf/__init__.py].

    Python objects that the plugin mutates (the plugin instance [self], the
    header [hdr], the file handle [f]) live in one explicit [world] that is
    threaded through a state-and-exception monad.  The external
    collaborators (the poppler renderer behind [pdf2image], the clock, the
    temporary-file namer) are the fields of an environment record. *)

From Stdlib Require Import ZArith List Ascii String Lia Bool QArith.
From Stdlib.Strings Require Import Byte.
From stdpp Require Import gmap strings list fin_maps.

Local Open Scope string_scope.
Local Open Scope Z_scope.

(** ** Python values, exceptions and builtins *)

Module Py.

(** The dynamically typed values that end up in instance attributes and in
    the option dictionary. *)
Inductive pyval :=
| PNone
| PBool (b : bool)
| PInt (z : Z)
| PStr (s : string).

(** Exception classes that the plugin raises or lets through. *)
Inductive exn_class :=
| OSError
| ValueError
| AttributeError
| TypeError
| IndexError
| NotImageError
| WriteNotImplemented
| RendererError.

(** An exception: its class and its message.  The messages of exceptions
    raised by the plugin are the source's; those of exceptions raised by
    builtins are indicative, the theorems only use their class. *)
Record exn := Exn { cls : exn_class; msg : string }.

Inductive result (A : Type) :=
| Ok (a : A)
| Raise (e : exn).
Arguments Ok {A} a.
Arguments Raise {A} e.

Definition is_ok {A} (r : result A) : bool :=
  match r with Ok _ => true | Raise _ => false end.

Definition raised {A} (r : result A) : option exn_class :=
  match r with Ok _ => None | Raise e => Some (cls e) end.

(** Truth value of an object, as used by [and] and [if]. *)
Definition truthy (v : pyval) : bool :=
  match v with
  | PNone => false
  | PBool b => b
  | PInt z => negb (z =? 0)
  | PStr s => negb (String.eqb s "")
  end.

(** *** [str.split(sep)] with a one-character separator *)

Fixpoint split_go (sep : ascii) (cur : string) (s : string) : list string :=
  match s with
  | EmptyString => [String.rev cur]
  | String c rest =>
      if Ascii.eqb c sep then String.rev cur :: split_go sep EmptyString rest
      else split_go sep (String c cur) rest
  end.

Definition split (sep : ascii) (s : string) : list string :=
  split_go sep EmptyString s.

(** *** [str.lower()]

    Strings are byte strings here.  ASCII capitals are lowered, every other
    byte is kept. *)
Definition lower_ascii (c : ascii) : ascii :=
  let n := nat_of_ascii c in
  if ((65 <=? n) && (n <=? 90))%nat then ascii_of_nat (n + 32) else c.

Fixpoint lower (s : string) : string :=
  match s with
  | EmptyString => EmptyString
  | String c rest => String (lower_ascii c) (lower rest)
  end.

(** *** [int(x)]

    For a string: surrounding white space (tab, line feed, vertical tab,
    form feed, carriage return, space) is stripped, one sign is allowed,
    then decimal digits, single underscores allowed between two digits.
    The model covers ASCII text. *)
Definition is_space (c : ascii) : bool :=
  let n := nat_of_ascii c in
  (((9 <=? n) && (n <=? 13)) || (n =? 32))%nat.

Definition digit_of (c : ascii) : option Z :=
  let n := nat_of_ascii c in
  if ((48 <=? n) && (n <=? 57))%nat then Some (Z.of_nat (n - 48)) else None.

Fixpoint lstrip (s : string) : string :=
  match s with
  | String c rest => if is_space c then lstrip rest else s
  | EmptyString => EmptyString
  end.

Definition strip (s : string) : string :=
  String.rev (lstrip (String.rev (lstrip s))).

(** [digits_go acc after_digit s]: [after_digit] tells whether the previous
    character was a digit, which is where an underscore may stand. *)
Fixpoint digits_go (acc : Z) (after_digit : bool) (s : string) : option Z :=
  match s with
  | EmptyString => if after_digit then Some acc else None
  | String c rest =>
      match digit_of c with
      | Some d => digits_go (10 * acc + d) true rest
      | None =>
          if Ascii.eqb c "_" && after_digit then
            match rest with
            | String c' _ =>
                match digit_of c' with
                | Some _ => digits_go acc false rest
                | None => None
                end
            | EmptyString => None
            end
          else None
      end
  end.

Definition int_of_str (s : string) : option Z :=
  match strip s with
  | String "+" rest => digits_go 0 false rest
  | String "-" rest => Z.opp <$> digits_go 0 false rest
  | body => digits_go 0 false body
  end.

Definition int (v : pyval) : result Z :=
  match v with
  | PInt z => Ok z
  | PBool b => Ok (if b then 1 else 0)
  | PStr s =>
      match int_of_str s with
      | Some z => Ok z
      | None => Raise (Exn ValueError "invalid literal for int() with base 10")
      end
  | PNone => Raise (Exn TypeError "int() argument must be a string or a number")
  end.

(** [x.lower()] on an arbitrary object: only strings have the method. *)
Definition call_lower (v : pyval) : result string :=
  match v with
  | PStr s => Ok (lower s)
  | _ => Raise (Exn AttributeError "object has no attribute 'lower'")
  end.

(** [x.split(',')] on an arbitrary object. *)
Definition call_split (sep : ascii) (v : pyval) : result (list string) :=
  match v with
  | PStr s => Ok (split sep s)
  | _ => Raise (Exn AttributeError "object has no attribute 'split'")
  end.

(** [str(n)] for an integer, used by [str.format]. *)
Fixpoint digits_of_pos (fuel : nat) (n : Z) (acc : string) : string :=
  match fuel with
  | O => acc
  | S fuel' =>
      let acc' := String (ascii_of_nat (Z.to_nat (48 + n mod 10))) acc in
      if n / 10 =? 0 then acc' else digits_of_pos fuel' (n / 10) acc'
  end.

Definition str_of_int (z : Z) : string :=
  if z <? 0 then String "-" (digits_of_pos (Z.to_nat (Z.log2 (- z)) + 1) (- z) "")
  else digits_of_pos (Z.to_nat (Z.log2 z) + 1) z "".

End Py.
Export Py.

(** ** The part of numpy that the plugin uses *)

Module Numpy.

Inductive dtype := uint8 | float64.

Definition itemsize (d : dtype) : nat :=
  match d with uint8 => 1 | float64 => 8 end.

(** A C-contiguous array: its shape, its element type and its buffer. *)
Record ndarray := NDArray { shape : list nat; dt : dtype; data : list byte }.

Definition ndim (a : ndarray) : nat := length (shape a).

Definition size_of (sh : list nat) : nat := fold_right Nat.mul 1%nat sh.

(** [np.zeros(shape, dtype)] *)
Definition zeros (sh : list nat) (d : dtype) : ndarray :=
  NDArray sh d (repeat x00 (size_of sh * itemsize d)).

(** [chunks n k d]: the first [k] consecutive blocks of [n] bytes of [d]. *)
Fixpoint chunks (n k : nat) (d : list byte) : list (list byte) :=
  match k with
  | O => []
  | S k' => take n d :: chunks n k' (drop n d)
  end.

Fixpoint sequence_opt {A} (l : list (option A)) : option (list A) :=
  match l with
  | [] => Some []
  | None :: _ => None
  | Some x :: l' =>
      match sequence_opt l' with
      | Some xs => Some (x :: xs)
      | None => None
      end
  end.

(** Broadcasting of a buffer of shape [vs] to the shape [ts] of equal rank
    ([unit] is the byte size of one innermost element): along every axis
    the extents agree, or the value's extent is 1 and it is repeated. *)
Fixpoint broadcast (unit : nat) (vs ts : list nat) (d : list byte)
  : option (list byte) :=
  match vs, ts with
  | [], [] => Some (take unit d)
  | v :: vs', t :: ts' =>
      if (v =? t)%nat then
        match sequence_opt
                (map (broadcast unit vs' ts') (chunks (size_of vs' * unit) v d))
        with
        | Some blks => Some (List.concat blks)
        | None => None
        end
      else if (v =? 1)%nat then
        match broadcast unit vs' ts' d with
        | Some blk => Some (List.concat (repeat blk t))
        | None => None
        end
      else None
  | _, _ => None
  end.

(** [a[i] = v] for an array [a] of rank at least one and a value whose rank
    is that of [a[i]]. *)
Definition setitem (a : ndarray) (i : nat) (v : ndarray) : result ndarray :=
  match shape a with
  | n :: sub =>
      if (i <? n)%nat then
        match broadcast (itemsize (dt a)) (shape v) sub (data v) with
        | Some blk =>
            let sz := (size_of sub * itemsize (dt a))%nat in
            Ok (NDArray (shape a) (dt a)
                  (take (i * sz) (data a) ++ blk ++ drop ((i + 1) * sz) (data a)))
        | None =>
            Raise (Exn ValueError "could not broadcast input array")
        end
      else Raise (Exn IndexError "index is out of bounds for axis 0")
  | [] => Raise (Exn IndexError "too many indices for array")
  end.

(** [np.rot90(a, axes=(1,2))], that is
    [transpose(flip(a, 2), axes 1 and 2 swapped)]: the element at
    [p, i, j] of the result is the element at [p, j, w-1-i] of [a]. *)
Definition rot90_axes12 (a : ndarray) : result ndarray :=
  match shape a with
  | n :: h :: w :: rest =>
      let c := (size_of rest * itemsize (dt a))%nat in
      Ok (NDArray (n :: w :: h :: rest) (dt a)
            (flat_map (fun p =>
               flat_map (fun i =>
                 flat_map (fun j =>
                   map (fun k => nth (((p * h + j) * w + (w - 1 - i)) * c + k)
                                     (data a) x00)
                       (seq 0 c))
                   (seq 0 h))
                 (seq 0 w))
               (seq 0 n)))
  | _ => Raise (Exn ValueError "Axes=(1, 2) out of range for array")
  end.

(** [a.shape = a.shape[1:]] *)
Definition drop_leading_axis (a : ndarray) : ndarray :=
  NDArray (tail (shape a)) (dt a) (data a).

End Numpy.
Export Numpy.

(** ** The objects the plugin reads and builds *)

(** A rendered page, as [pdf2image] returns it: a PIL image in mode RGB.
    [pixels] is the raw buffer, [height * width * 3] bytes, row by row. *)
Record PageImage := Page { height : nat; width : nat; pixels : list byte }.

(** [np.asarray(img)], the conversion that [si[i] = img] applies. *)
Definition asarray (img : PageImage) : ndarray :=
  NDArray [height img; width img; 3%nat] uint8 (pixels img).

(** The file meta information of a [FileDataset]. *)
Record FileMeta := {
  MediaStorageSOPClassUID : string;
  MediaStorageSOPInstanceUID : string;
  ImplementationClassUID : string;
  TransferSyntaxUID : string
}.

(** The [pydicom] data set built by [generate_dicom_from_pdf], one field
    per attribute the function assigns. *)
Record Dataset := {
  filename : string;
  file_meta : FileMeta;
  preamble : list byte;
  is_little_endian : bool;
  is_implicit_VR : bool;
  StudyDate : string;
  StudyTime : string;
  ContentDate : string;
  ContentTime : string;
  AcquisitionDateTime : string;
  Manufacturer : string;
  ReferringPhysicianName : string;
  SOPClassUID : string;
  EncapsulatedDocument : list byte;
  MIMETypeOfEncapsulatedDocument : string;
  Modality : string;
  ConversionType : string;
  SpecificCharacterSet : string;
  BurnedInAnnotation : string;
  RecognizableVisualFeatures : string;
  DocumentTitle : string;
  VerificationFlag : string;
  InstanceNumber : Z;
  ConceptNameCodeSequence : list unit
}.

(** [imagedata.axis] descriptors. *)
Inductive axis :=
| UniformLengthAxis (name : string) (start : Z) (n : nat) (step : Q)
| VariableAxis (name : string) (values : list string).

Definition axis_name (a : axis) : string :=
  match a with
  | UniformLengthAxis nm _ _ _ => nm
  | VariableAxis nm _ => nm
  end.

(** [hdr.tags] is a list in encapsulation mode ([[0]], then [[[0]]]) and a
    dict from slice index to a one-element array after [_set_tags]. *)
Inductive tagval :=
| TagInt (z : Z)
| TagArr (l : list Z).

Inductive tags_t :=
| TagsList (l : list tagval)
| TagsDict (m : gmap nat (list Z)).

(** The attributes of the header object that the plugin assigns or reads;
    [None] is an attribute that is not set. *)
Record Header := {
  DicomHeaderDict : option (list (list (pyval * pyval * Dataset)));
  tags : option tags_t;
  spacing : option (Q * Q * Q);
  photometricInterpretation : option string;
  color : option bool;
  imagePositions : option (gmap nat (list Z));
  orientation : option (list Z);
  axes : option (list axis)
}.

Definition empty_header : Header :=
  {| DicomHeaderDict := None; tags := None; spacing := None;
     photometricInterpretation := None; color := None;
     imagePositions := None; orientation := None; axes := None |}.

Definition set_DicomHeaderDict v (h : Header) : Header :=
  {| DicomHeaderDict := Some v; tags := tags h; spacing := spacing h;
     photometricInterpretation := photometricInterpretation h;
     color := color h; imagePositions := imagePositions h;
     orientation := orientation h; axes := axes h |}.

Definition set_tags v (h : Header) : Header :=
  {| DicomHeaderDict := DicomHeaderDict h; tags := Some v; spacing := spacing h;
     photometricInterpretation := photometricInterpretation h;
     color := color h; imagePositions := imagePositions h;
     orientation := orientation h; axes := axes h |}.

Definition set_spacing v (h : Header) : Header :=
  {| DicomHeaderDict := DicomHeaderDict h; tags := tags h; spacing := Some v;
     photometricInterpretation := photometricInterpretation h;
     color := color h; imagePositions := imagePositions h;
     orientation := orientation h; axes := axes h |}.

Definition set_photometricInterpretation v (h : Header) : Header :=
  {| DicomHeaderDict := DicomHeaderDict h; tags := tags h; spacing := spacing h;
     photometricInterpretation := Some v;
     color := color h; imagePositions := imagePositions h;
     orientation := orientation h; axes := axes h |}.

Definition set_color v (h : Header) : Header :=
  {| DicomHeaderDict := DicomHeaderDict h; tags := tags h; spacing := spacing h;
     photometricInterpretation := photometricInterpretation h;
     color := Some v; imagePositions := imagePositions h;
     orientation := orientation h; axes := axes h |}.

Definition set_imagePositions v (h : Header) : Header :=
  {| DicomHeaderDict := DicomHeaderDict h; tags := tags h; spacing := spacing h;
     photometricInterpretation := photometricInterpretation h;
     color := color h; imagePositions := Some v;
     orientation := orientation h; axes := axes h |}.

Definition set_orientation v (h : Header) : Header :=
  {| DicomHeaderDict := DicomHeaderDict h; tags := tags h; spacing := spacing h;
     photometricInterpretation := photometricInterpretation h;
     color := color h; imagePositions := imagePositions h;
     orientation := Some v; axes := axes h |}.

Definition set_axes v (h : Header) : Header :=
  {| DicomHeaderDict := DicomHeaderDict h; tags := tags h; spacing := spacing h;
     photometricInterpretation := photometricInterpretation h;
     color := color h; imagePositions := imagePositions h;
     orientation := orientation h; axes := Some v |}.

(** An open binary file handle: [f.read()] returns what lies after the
    position and moves the position to the end. *)
Record File := { f_repr : string; f_bytes : list byte; f_pos : nat }.

Definition open_bytes (b : list byte) : File :=
  {| f_repr := "<file>"; f_bytes := b; f_pos := 0 |}.

(** Calls to the external collaborators, in the order they are made. *)
Inductive event :=
| EvConvertFromBytes (input : list byte)
| EvNamedTemporaryFile (suffix : string)
| EvDatetimeNow.

(** Everything a call of the plugin can mutate or observe. *)
Record world := World {
  self : gmap string pyval;     (* the instance attributes of the plugin *)
  hdr : Header;                 (* the header object passed in *)
  f : File;                     (* the file handle passed in *)
  trace : list event            (* calls made to collaborators *)
}.

(** The collaborators: the flag of [__init__.py], the renderer of
    [pdf2image], the temporary-file namer and the clock. *)
Record Env := {
  POPPLER_INSTALLED : bool;
  convert_from_bytes : list byte -> result (list PageImage);
  NamedTemporaryFile_name : string -> string;
  now_strftime : string -> string
}.

(** ** The state-and-exception monad *)

Definition M (A : Type) : Type := world -> result A * world.

Definition ret {A} (a : A) : M A := fun w => (Ok a, w).

Definition raise {A} (e : exn) : M A := fun w => (Raise e, w).

Definition bind {A B} (m : M A) (k : A -> M B) : M B :=
  fun w =>
    match m w with
    | (Ok a, w') => k a w'
    | (Raise e, w') => (Raise e, w')
    end.

Notation "'let*' x ':=' c1 'in' c2" := (bind c1 (fun x => c2))
  (at level 10, x pattern, c1 at level 100, c2 at level 200).
Notation "c1 ;; c2" := (bind c1 (fun _ => c2))
  (at level 100, c2 at level 200, right associativity).

Definition lift {A} (r : result A) : M A := fun w => (r, w).

Fixpoint for_each {A} (l : list A) (body : A -> M unit) : M unit :=
  match l with
  | [] => ret tt
  | x :: l' => body x ;; for_each l' body
  end.

(** [setattr(self, attr, value)] *)
Definition setattr (attr : string) (v : pyval) : M unit :=
  fun w => (Ok tt, World (<[attr := v]> (self w)) (hdr w) (f w) (trace w)).

(** [self.attr] *)
Definition getattr (attr : string) : M pyval :=
  fun w =>
    match self w !! attr with
    | Some v => (Ok v, w)
    | None =>
        (Raise (Exn AttributeError
                  ("'PDFPlugin' object has no attribute '" ++ attr ++ "'")), w)
    end.

Definition get_hdr : M Header := fun w => (Ok (hdr w), w).

Definition modify_hdr (g : Header -> Header) : M unit :=
  fun w => (Ok tt, World (self w) (g (hdr w)) (f w) (trace w)).

Definition emit (e : event) : M unit :=
  fun w => (Ok tt, World (self w) (hdr w) (f w) (trace w ++ [e])).

(** [f.read()] *)
Definition f_read : M (list byte) :=
  fun w =>
    let fh := f w in
    (Ok (drop (f_pos fh) (f_bytes fh)),
     World (self w) (hdr w)
       {| f_repr := f_repr fh; f_bytes := f_bytes fh;
          f_pos := Nat.max (f_pos fh) (length (f_bytes fh)) |}
       (trace w)).

(** ** The plugin: [class PDFPlugin] *)

Section PDFPlugin.

Variable env : Env.

(** [legal_attributes = {'dpi', 'rotate', 'encapsulate'}] *)
Definition legal_attributes : gset string :=
  {[ "dpi"; "rotate"; "encapsulate" ]}.

(** The body of the loop over [opts['pdfopt'].split(',')] (lines 78-82).
    The tuple assignment [attr,value = expr.split('=')] needs exactly two
    parts and raises [ValueError] otherwise. *)
Definition set_option (expr : string) : M unit :=
  match split "=" expr with
  | [attr; value] =>
      if decide (attr ∈ legal_attributes) then setattr attr (PStr value)
      else raise (Exn ValueError ("Unknown attribute " ++ attr ++ " set in psopt"))
  | [] | [_] =>
      raise (Exn ValueError "not enough values to unpack (expected 2)")
  | _ =>
      raise (Exn ValueError "too many values to unpack (expected 2)")
  end.

(** Lines 75-82: [if 'pdfopt' in opts and opts['pdfopt']: for expr in ...]. *)
Definition parse_pdfopt (opts : gmap string pyval) : M unit :=
  match opts !! "pdfopt" with
  | Some v =>
      if truthy v then
        let* exprs := lift (call_split "," v) in
        for_each exprs set_option
      else ret tt
  | None => ret tt
  end.

(** [x in {0, 90}] for an arbitrary object ([False == 0] in Python). *)
Definition in_0_90 (v : pyval) : bool :=
  match v with
  | PInt z => bool_decide (z ∈ ({[ 0; 90 ]} : gset Z))
  | PBool b => negb b
  | _ => false
  end.

(** [x == 90] for an arbitrary object. *)
Definition eq_90 (v : pyval) : bool :=
  match v with
  | PInt z => z =? 90
  | _ => false
  end.

(** Lines 73-87: seeding, parsing, coercion and the check of [rotate]. *)
Definition resolve_options (opts : gmap string pyval) : M unit :=
  setattr "dpi" (PInt 150) ;;
  setattr "rotate" (PInt 0) ;;
  parse_pdfopt opts ;;
  let* dpi := getattr "dpi" in
  let* dpi' := lift (int dpi) in
  setattr "dpi" (PInt dpi') ;;
  let* rotate := getattr "rotate" in
  let* rotate' := lift (int rotate) in
  setattr "rotate" (PInt rotate') ;;
  let* e1 := getattr "encapsulate" in
  let* l1 := lift (call_lower e1) in
  let* enc :=
    (if String.eqb l1 "true" then ret true
     else
       let* e2 := getattr "encapsulate" in
       let* l2 := lift (call_lower e2) in
       ret (String.eqb l2 "on")) in
  setattr "encapsulate" (PBool enc) ;;
  let* r := getattr "rotate" in
  if negb (in_0_90 r) then
    raise (Exn ValueError
             ("psopt rotate value "
              ++ match r with PInt z => str_of_int z | _ => "" end
              ++ " is not implemented"))
  else ret tt.

(** [generate_dicom_from_pdf(self, f)] (lines 232-279). *)
Definition generate_dicom_from_pdf : M Dataset :=
  let suffix := ".dcm" in
  emit (EvNamedTemporaryFile suffix) ;;
  let filename := NamedTemporaryFile_name env suffix in
  let file_meta :=
    {| MediaStorageSOPClassUID := "1.2.840.10008.5.1.4.1.1.104.1";
       MediaStorageSOPInstanceUID :=
         "2.16.840.1.114430.287196081618142314176776725491661159509.60.1";
       ImplementationClassUID := "1.3.46.670589.50.1.8.0";
       TransferSyntaxUID := "1.2.840.10008.1.2.1" |} in
  emit EvDatetimeNow ;;
  let strftime := now_strftime env in
  let* f_read0 := f_read in
  let ValueLength := length f_read0 in
  let f_read1 :=
    if negb (ValueLength mod 2 =? 0)%nat then (f_read0 ++ [x00])%list else f_read0 in
  ret {| filename := filename;
         file_meta := file_meta;
         preamble := repeat x00 128;
         is_little_endian := true;
         is_implicit_VR := false;
         StudyDate := strftime "%Y%m%d";
         StudyTime := strftime "%H%M%S.%f";
         ContentDate := strftime "%Y%m%d";
         ContentTime := strftime "%H%M%S.%f";
         AcquisitionDateTime := "19700101";
         Manufacturer := "imagedata";
         ReferringPhysicianName := "";
         SOPClassUID := "1.2.840.10008.5.1.4.1.1.104.1";
         EncapsulatedDocument := f_read1;
         MIMETypeOfEncapsulatedDocument := "application/pdf";
         Modality := "DOC";
         ConversionType := "WSD";
         SpecificCharacterSet := "ISO_IR 100";
         BurnedInAnnotation := "YES";
         RecognizableVisualFeatures := "YES";
         DocumentTitle := "";
         VerificationFlag := "UNVERIFIED";
         InstanceNumber := 1;
         ConceptNameCodeSequence := [] |}.

(** What [_read_image] returns first: the header object itself in
    encapsulation mode, [True] in rasterization mode. *)
Inductive info := InfoHdr | InfoTrue.

(** Lines 88-93: the encapsulation branch. *)
Definition encapsulate_branch : M (info * option ndarray) :=
  let* ds := generate_dicom_from_pdf in
  modify_hdr (set_DicomHeaderDict [[(PNone, PNone, ds)]]) ;;
  modify_hdr (set_tags (TagsList [TagInt 0])) ;;
  modify_hdr (set_tags (TagsList (<[0%nat := TagArr [0]]> [TagInt 0]))) ;;
  ret (InfoHdr, None).

(** Lines 96-103: the call of the renderer inside [try]; only
    [NotImageError] is caught, and raised again with the plugin's message. *)
Definition render : M (list PageImage) :=
  let* input := f_read in
  emit (EvConvertFromBytes input) ;;
  fun w =>
    match convert_from_bytes env input with
    | Ok image_list => (Ok image_list, w)
    | Raise e =>
        match cls e with
        | NotImageError =>
            (Raise (Exn NotImageError
                      (f_repr (f w) ++ " does not look like a PostScript file")), w)
        | _ => (Raise e, w)
        end
    end.

(** Lines 110-112: [for i, img in enumerate(image_list): si[i] = img]. *)
Fixpoint fill (si : ndarray) (i : nat) (image_list : list PageImage)
  : result ndarray :=
  match image_list with
  | [] => Ok si
  | img :: rest =>
      match setitem si i (asarray img) with
      | Ok si' => fill si' (S i) rest
      | Raise e => Raise e
      end
  end.

(** Lines 104-112: the stacking of the pages. *)
Definition stack_pages (image_list : list PageImage) : result ndarray :=
  match image_list with
  | [] => Raise (Exn ValueError "No image data read")
  | img :: _ =>
      let shape := [length image_list; height img; width img; 3%nat] in
      let dtype := uint8 in
      let si := zeros shape dtype in
      fill si 0 image_list
  end.

(** Lines 95-123: the rasterization branch. *)
Definition rasterize_branch : M (info * option ndarray) :=
  let* image_list := render in
  let* si := lift (stack_pages image_list) in
  modify_hdr (set_spacing (1, 1, 1)%Q) ;;
  modify_hdr (set_photometricInterpretation "RGB") ;;
  modify_hdr (set_color true) ;;
  let* rotate := getattr "rotate" in
  let* si := (if eq_90 rotate then lift (rot90_axes12 si) else ret si) in
  let si :=
    if (ndim si =? 3)%nat && (hd 0%nat (shape si) =? 1)%nat
    then drop_leading_axis si else si in
  ret (InfoTrue, Some si).

(** [_read_image(self, f, opts, hdr)] (lines 54-123); [f] and [hdr] are the
    objects of the world. *)
Definition _read_image (opts : gmap string pyval) : M (info * option ndarray) :=
  if negb (POPPLER_INSTALLED env) then
    raise (Exn OSError "Poppler is not installed")
  else
    resolve_options opts ;;
    let* encapsulate := getattr "encapsulate" in
    if truthy encapsulate then encapsulate_branch else rasterize_branch.

(** [seq[-k]] for [k >= 1]. *)
Definition index_from_end (l : list nat) (k : nat) : result nat :=
  if (k <=? length l)%nat then
    match l !! (length l - k)%nat with
    | Some x => Ok x
    | None => Raise (Exn IndexError "tuple index out of range")
    end
  else Raise (Exn IndexError "tuple index out of range").

(** [for slice in range(nz): tags[slice] = np.array([0])] *)
Fixpoint fill_tags (slices : list nat) (tags : gmap nat (list Z))
  : gmap nat (list Z) :=
  match slices with
  | [] => tags
  | slice :: rest => fill_tags rest (<[slice := [0]]> tags)
  end.

(** [_set_tags(self, image_list, hdr, si)] (lines 136-196). *)
Definition _set_tags (image_list : list (info * option ndarray)) (si : ndarray)
  : M unit :=
  let spacing := (1, 1, 1)%Q in
  let position0 := [0; 0; 0] in
  modify_hdr (set_spacing spacing) ;;
  modify_hdr (set_imagePositions ∅) ;;
  modify_hdr (set_imagePositions (<[0%nat := position0]> ∅)) ;;
  modify_hdr (set_orientation [0; 1; 0; -1; 0; 0]) ;;
  let* h := get_hdr in
  let* _color :=
    match color h with
    | Some c => ret c
    | None => raise (Exn AttributeError "'Header' object has no attribute 'color'")
    end in
  let _actual_shape := if _color then removelast (shape si) else shape si in
  let _actual_ndim := length _actual_shape in
  let* rows := lift (index_from_end _actual_shape 2) in
  let axes :=
    [UniformLengthAxis "row" (nth 1 position0 0) rows (snd (fst spacing))] in
  let* columns := lift (index_from_end _actual_shape 1) in
  let axes :=
    (axes ++ [UniformLengthAxis "column" (nth 2 position0 0) columns
                (snd spacing)])%list in
  let* nz_axes :=
    (if (2 <? _actual_ndim)%nat then
       let* nz := lift (index_from_end _actual_shape 3) in
       ret (nz, UniformLengthAxis "slice" (nth 0 position0 0) nz
                  (fst (fst spacing)) :: axes)
     else ret (1%nat, axes)) in
  let nz := fst nz_axes in
  let axes := snd nz_axes in
  let axes :=
    if _color then (axes ++ [VariableAxis "rgb" ["r"; "g"; "b"]])%list else axes in
  modify_hdr (set_axes axes) ;;
  modify_hdr (set_tags (TagsDict (fill_tags (seq 0 nz) ∅))).

(** [write_3d_numpy(self, si, destination, opts)] (lines 281-300). *)
Definition write_3d_numpy (si : ndarray) (destination opts : gmap string pyval)
  : M unit :=
  raise (Exn WriteNotImplemented "Writing PDF files is not implemented.").

(** [write_4d_numpy(self, si, destination, opts)] (lines 302-321). *)
Definition write_4d_numpy (si : ndarray) (destination opts : gmap string pyval)
  : M unit :=
  raise (Exn WriteNotImplemented "Writing PDF files is not implemented.").

End PDFPlugin.

(** ** Vocabulary of the statements *)

(** Concrete collaborators for the closed examples: an upright page of two
    rows and one column, a lying page of one row and two columns, and an
    environment whose renderer returns the given pages. *)
Definition page_2x1 : PageImage := Page 2 1 [x0a; x0b; x0c; x0d; x0e; x0f].

Definition page_1x2 : PageImage := Page 1 2 [x01; x02; x03; x04; x05; x06].

Definition demo_env (installed : bool) (pages : list PageImage) : Env :=
  {| POPPLER_INSTALLED := installed;
     convert_from_bytes := fun _ => Ok pages;
     NamedTemporaryFile_name := fun suffix => "/tmp/tmpq3x1" ++ suffix;
     now_strftime := fun fmt =>
       if String.eqb fmt "%Y%m%d" then "20220301" else "101500.000000" |}.

(** A freshly constructed plugin, an empty header and a file at position 0. *)
Definition fresh_world (b : list byte) : world :=
  World ∅ empty_header (open_bytes b) [].

(** The option dictionary [{'pdfopt': s}]. *)
Definition pdfopt (s : string) : gmap string pyval := {[ "pdfopt" := PStr s ]}.

(** The part of the world that option handling never touches. *)
Definition same_frame (w w' : world) : Prop :=
  hdr w' = hdr w /\ f w' = f w /\ trace w' = trace w.

(** The settings a read works with once lines 73-87 ran without error:
    [(dpi, rotate, encapsulate)]. *)
Definition settings_after (opts : gmap string pyval) (w : world)
  : option (Z * Z * bool) :=
  match resolve_options opts w with
  | (Ok _, w1) =>
      match self w1 !! "dpi", self w1 !! "rotate", self w1 !! "encapsulate" with
      | Some (PInt d), Some (PInt r), Some (PBool b) => Some (d, r, b)
      | _, _, _ => None
      end
  | (Raise _, _) => None
  end.

(** The same collaborators with another value of the availability flag. *)
Definition set_installed (b : bool) (env : Env) : Env :=
  {| POPPLER_INSTALLED := b;
     convert_from_bytes := convert_from_bytes env;
     NamedTemporaryFile_name := NamedTemporaryFile_name env;
     now_strftime := now_strftime env |}.

(** The key of an entry: what stands before its first ['=']. *)
Definition entry_key (expr : string) : string := hd "" (split "=" expr).

(** An entry that the loop body accepts: exactly one ['='], legal key. *)
Definition accepted_entry (expr : string) : bool :=
  match split "=" expr with
  | [attr; _] => bool_decide (attr ∈ legal_attributes)
  | _ => false
  end.

(** What an accepted entry does to the instance. *)
Definition apply_entry (slf : gmap string pyval) (expr : string)
  : gmap string pyval :=
  match split "=" expr with
  | [attr; value] => <[attr := PStr value]> slf
  | _ => slf
  end.

(** The entries the loop runs over: none when the string is empty, since
    an empty string is false in [if 'pdfopt' in opts and opts['pdfopt']]. *)
Definition entries (s : string) : list string :=
  if String.eqb s "" then [] else split "," s.

(** An entry that assigns [encapsulate]. *)
Definition sets_encapsulate (expr : string) : bool :=
  match split "=" expr with
  | [attr; _] => String.eqb attr "encapsulate"
  | _ => false
  end.

(** An [encapsulate] attribute on which [.lower()] can be called. *)
Definition has_str_encapsulate (slf : gmap string pyval) : bool :=
  match slf !! "encapsulate" with
  | Some (PStr _) => true
  | _ => false
  end.

(** Options that never assign [encapsulate]. *)
Definition omits_encapsulate (opts : gmap string pyval) : bool :=
  match opts !! "pdfopt" with
  | Some (PStr s) => forallb (fun e => negb (sets_encapsulate e)) (split "," s)
  | _ => true
  end.

(** The instance once [dpi] and [rotate] are seeded (lines 73-74). *)
Definition seeded (w : world) : world :=
  World (<["rotate" := PInt 0]> (<["dpi" := PInt 150]> (self w)))
    (hdr w) (f w) (trace w).

(** Pages that all have the size of the first one, each with a buffer of
    [height * width * 3] bytes. *)
Definition page_fits (h w : nat) (p : PageImage) : bool :=
  (height p =? h)%nat && (width p =? w)%nat
  && (length (pixels p) =? h * w * 3)%nat.

(** All pages fit the size of the first one. *)
Definition uniform_pages (pages : list PageImage) : bool :=
  match pages with
  | [] => true
  | p0 :: _ => forallb (page_fits (height p0) (width p0)) pages
  end.

(** What the rasterization branch returns, as a function of the file and
    of the resolved [rotate]. *)
Definition rasterized (env : Env) (fl : File) (r : Z) : result ndarray :=
  match convert_from_bytes env (drop (f_pos fl) (f_bytes fl)) with
  | Raise e =>
      match cls e with
      | NotImageError =>
          Raise (Exn NotImageError
                   (f_repr fl ++ " does not look like a PostScript file"))
      | _ => Raise e
      end
  | Ok image_list =>
      match stack_pages image_list with
      | Raise e => Raise e
      | Ok si =>
          match (if r =? 90 then rot90_axes12 si else Ok si) with
          | Raise e => Raise e
          | Ok si' =>
              Ok (if (ndim si' =? 3)%nat && (hd 0%nat (shape si') =? 1)%nat
                  then drop_leading_axis si' else si')
          end
      end
  end.

(** ** The availability flag: [__init__.py], lines 36-42 *)

(** What [subprocess.call(["pdfinfo", "-h"], ...)] does inside the [try]:
    it returns an exit code, or [OSError] is raised with an [errno]. *)
Inductive call_outcome :=
| CallReturns (exit_code : Z)
| CallRaisesOSError (errno : Z).

(** The names bound at module level when the [except] clause runs: the
    imports of lines 3-6 and 17-20, the assignments of lines 11-34, the
    handle of the [with] statements and the exception of the clause.  The
    module [errno] is not imported, and no builtin has that name. *)
Definition module_names : list string :=
  ["logging"; "os"; "join"; "exists"; "subprocess"; "_version_file";
   "version"; "entry_points"; "PackageNotFoundError"; "__version__"; "fh";
   "__author__"; "__email__"; "e"].

(** The outcome of lines 36-42: the flag is recorded, or the import of the
    package stops with an exception. *)
Inductive import_result :=
| FlagRecorded (flag : bool)
| ImportRaises (exception message : string).

Definition ENOENT : Z := 2.

(** Lines 36-42.  In [e.errno != errno.ENOENT] the name [errno] is looked
    up among the names of the module. *)
Definition probe (o : call_outcome) : import_result :=
  match o with
  | CallReturns _ => FlagRecorded true
  | CallRaisesOSError n =>
      if existsb (String.eqb "errno") module_names
      then FlagRecorded (negb (n =? ENOENT))
      else ImportRaises "NameError" "name 'errno' is not defined"
  end.

(** ** Vocabulary of the further properties *)

(** The value that an entry assigns to the key [k], if it assigns it. *)
Definition entry_value_for (k : string) (expr : string) : option string :=
  match split "=" expr with
  | [attr; value] => if String.eqb attr k then Some value else None
  | _ => None
  end.

(** The value of the last entry that assigns [k]. *)
Fixpoint last_value (k : string) (exprs : list string) : option string :=
  match exprs with
  | [] => None
  | e :: rest =>
      match last_value k rest with
      | Some v => Some v
      | None => entry_value_for k e
      end
  end.

(** The coercion of line 85 on a string. *)
Definition coerce_encapsulate (e : string) : bool :=
  String.eqb (lower e) "true" || String.eqb (lower e) "on".

(** The file handle after [f.read()]. *)
Definition at_end (fl : File) : File :=
  {| f_repr := f_repr fl; f_bytes := f_bytes fl;
     f_pos := Nat.max (f_pos fl) (length (f_bytes fl)) |}.

(** What [f.read()] returns. *)
Definition unread (fl : File) : list byte := drop (f_pos fl) (f_bytes fl).

(** A page that numpy can broadcast into a slot of [h] rows and [w]
    columns: each extent is the slot's, or 1. *)
Definition broadcastable (h w : nat) (p : PageImage) : bool :=
  ((height p =? h)%nat || (height p =? 1)%nat)
  && ((width p =? w)%nat || (width p =? 1)%nat).

(** The axes [_set_tags] derives, from the three last extents that are
    not the colour. *)
Definition expected_axes (c : bool) (slice : option nat) (h wd : nat)
  : list axis :=
  (match slice with
   | Some n => [UniformLengthAxis "slice" 0 n 1%Q]
   | None => []
   end
   ++ [UniformLengthAxis "row" 0 h 1%Q; UniformLengthAxis "column" 0 wd 1%Q]
   ++ (if c then [VariableAxis "rgb" ["r"; "g"; "b"]] else []))%list.

(** Whether the character [c] occurs in [s]. *)
Fixpoint contains (c : ascii) (s : string) : bool :=
  match s with
  | EmptyString => false
  | String c' rest => Ascii.eqb c' c || contains c rest
  end.

(** An option dictionary whose [pdfopt] is missing or false ([None], the
    empty string, [False], 0). *)
Definition pdfopt_is_false (opts : gmap string pyval) : bool :=
  match opts !! "pdfopt" with
  | None => true
  | Some v => negb (truthy v)
  end.

(** ** The program as a whole: import, then read *)

(** [pdfplugin.py] starts with [from . import POPPLER_INSTALLED]: the
    plugin exists only once [__init__.py] has run to its end, and reads
    with the flag that lines 36-42 recorded. *)
Inductive program_result :=
| ImportFailed (exception message : string)
| ReadDone (r : result (info * option ndarray) * world).

Definition import_then_read (o : call_outcome) (env : Env)
    (opts : gmap string pyval) (w : world) : program_result :=
  match probe o with
  | FlagRecorded flag => ReadDone (_read_image (set_installed flag env) opts w)
  | ImportRaises exception message => ImportFailed exception message
  end.

(** * Verification *)

(** ** Sanity checks of the builtins on concrete inputs *)

Example split_commas : split "," "dpi=100,rotate=90" = ["dpi=100"; "rotate=90"].
Proof. reflexivity. Qed.

Example split_keeps_empty_entries : split "," "a,,b," = ["a"; ""; "b"; ""].
Proof. reflexivity. Qed.

Example split_three_parts : split "=" "dpi=1=2" = ["dpi"; "1"; "2"].
Proof. reflexivity. Qed.

Example lower_True : lower "True" = "true".
Proof. reflexivity. Qed.

Example int_accepts_space_sign_underscore : int (PStr " +1_50 ") = Ok 150.
Proof. reflexivity. Qed.

Example int_rejects_double_underscore :
  raised (int (PStr "9__0")) = Some ValueError.
Proof. reflexivity. Qed.

Example int_negative : int (PStr "-45") = Ok (-45).
Proof. reflexivity. Qed.

Example str_of_int_examples :
  str_of_int 45 = "45" /\ str_of_int (-180) = "-180" /\ str_of_int 0 = "0".
Proof. repeat split; reflexivity. Qed.

(** [np.rot90] of the one-row image [[1, 2]] is [[2], [1]]. *)
Example rot90_row :
  rot90_axes12 (NDArray [1; 1; 2; 1]%nat uint8 [x01; x02])
  = Ok (NDArray [1; 2; 1; 1]%nat uint8 [x02; x01]).
Proof. reflexivity. Qed.

(** ** Running the monad *)

Lemma bind_Ok {A B} (m : M A) (k : A -> M B) w a w' :
  m w = (Ok a, w') -> bind m k w = k a w'.
Proof. intros H. unfold bind. now rewrite H. Qed.

Lemma bind_Raise {A B} (m : M A) (k : A -> M B) w e w' :
  m w = (Raise e, w') -> bind m k w = (Raise e, w').
Proof. intros H. unfold bind. now rewrite H. Qed.

Lemma bind_Ok_inv {A B} (m : M A) (k : A -> M B) w b w2 :
  bind m k w = (Ok b, w2) ->
  exists a w1, m w = (Ok a, w1) /\ k a w1 = (Ok b, w2).
Proof.
  unfold bind. destruct (m w) as [[a|e] w1]; intros H.
  - now exists a, w1.
  - discriminate.
Qed.

Lemma same_frame_refl w : same_frame w w.
Proof. now repeat split. Qed.

Lemma same_frame_trans w1 w2 w3 :
  same_frame w1 w2 -> same_frame w2 w3 -> same_frame w1 w3.
Proof.
  intros (H1 & H2 & H3) (K1 & K2 & K3).
  repeat split; congruence.
Qed.

Lemma setattr_frame attr v w : same_frame w (snd (setattr attr v w)).
Proof. now repeat split. Qed.

Lemma getattr_world attr w : snd (getattr attr w) = w.
Proof. unfold getattr. now destruct (self w !! attr). Qed.

Lemma lift_world {A} (r : result A) w : snd (lift r w) = w.
Proof. reflexivity. Qed.

Lemma bind_frame {A B} (m : M A) (k : A -> M B) w :
  same_frame w (snd (m w)) ->
  (forall a w1, same_frame w1 (snd (k a w1))) ->
  same_frame w (snd (bind m k w)).
Proof.
  intros Hm Hk. unfold bind.
  destruct (m w) as [[a|e] w1] eqn:E; simpl in Hm.
  - eapply same_frame_trans; [exact Hm | apply Hk].
  - exact Hm.
Qed.

Lemma set_option_frame expr w : same_frame w (snd (set_option expr w)).
Proof.
  unfold set_option.
  destruct (split "=" expr) as [|a [|b [|c l]]]; try apply same_frame_refl.
  destruct (decide (a ∈ legal_attributes)).
  - apply setattr_frame.
  - apply same_frame_refl.
Qed.

Lemma for_each_set_option_frame exprs w :
  same_frame w (snd (for_each exprs set_option w)).
Proof.
  revert w. induction exprs as [|e exprs IH]; intros w; simpl.
  - apply same_frame_refl.
  - apply bind_frame; [apply set_option_frame | intros _ w1; apply IH].
Qed.

Lemma parse_pdfopt_frame opts w : same_frame w (snd (parse_pdfopt opts w)).
Proof.
  unfold parse_pdfopt.
  destruct (opts !! "pdfopt") as [v|]; [|apply same_frame_refl].
  destruct (truthy v); [|apply same_frame_refl].
  apply bind_frame.
  - rewrite lift_world. apply same_frame_refl.
  - intros exprs w1. apply for_each_set_option_frame.
Qed.

Ltac frame_step :=
  first
    [ apply setattr_frame
    | apply parse_pdfopt_frame
    | rewrite getattr_world; apply same_frame_refl
    | rewrite lift_world; apply same_frame_refl
    | apply same_frame_refl ].

Lemma resolve_options_frame opts w :
  same_frame w (snd (resolve_options opts w)).
Proof.
  unfold resolve_options.
  repeat (apply bind_frame; [frame_step | intros ? ?]).
  apply bind_frame.
  - destruct (String.eqb _ _); [frame_step|].
    repeat (apply bind_frame; [frame_step | intros ? ?]). frame_step.
  - intros enc w11.
    repeat (apply bind_frame; [frame_step | intros ? ?]).
    destruct (negb _); frame_step.
Qed.

Ltac inv_bind H :=
  let a := fresh "a" in
  let w := fresh "w" in
  let H1 := fresh "H" in
  apply bind_Ok_inv in H; destruct H as (a & w & H1 & H).

Lemma setattr_eq attr v w :
  setattr attr v w = (Ok tt, World (<[attr := v]> (self w)) (hdr w) (f w) (trace w)).
Proof. reflexivity. Qed.

Lemma getattr_Ok_inv attr w v w' :
  getattr attr w = (Ok v, w') -> w' = w /\ self w !! attr = Some v.
Proof.
  unfold getattr. destruct (self w !! attr); intros H; inversion H; auto.
Qed.

Lemma lift_Ok_inv {A} (r : result A) w a w' :
  lift r w = (Ok a, w') -> w' = w /\ r = Ok a.
Proof. unfold lift. intros H; inversion H; auto. Qed.

Lemma in_0_90_PInt r : in_0_90 (PInt r) = true -> r = 0 \/ r = 90.
Proof.
  simpl. intros H. apply bool_decide_eq_true in H. set_solver.
Qed.

Ltac inv_step H :=
  inv_bind H;
  repeat match goal with
  | K : setattr _ _ _ = (Ok _, _) |- _ =>
      rewrite setattr_eq in K; inversion K; subst; clear K
  | K : getattr _ _ = (Ok _, _) |- _ =>
      apply getattr_Ok_inv in K; destruct K as [-> K]
  | K : lift _ _ = (Ok _, _) |- _ =>
      apply lift_Ok_inv in K; destruct K as [-> K]
  | K : ret _ _ = (Ok _, _) |- _ =>
      unfold ret in K; inversion K; subst; clear K
  end.

Tactic Notation "inv_bind" hyp(H) "as" ident(a) ident(w) ident(H1) :=
  apply bind_Ok_inv in H; destruct H as (a & w & H1 & H).

(** The coercion of [encapsulate] (line 85) reads the instance only. *)
Lemma coerce_encapsulate_world (l1 : string) w enc w' :
  (if String.eqb l1 "true" then ret true
   else
     let* e2 := getattr "encapsulate" in
     let* l2 := lift (call_lower e2) in
     ret (String.eqb l2 "on")) w = (Ok enc, w') ->
  w' = w.
Proof.
  destruct (String.eqb l1 "true"); intros H.
  - unfold ret in H. now inversion H.
  - do 2 inv_step H. reflexivity.
Qed.

(** What holds of the instance after options were resolved without error:
    the three settings are typed, and [rotate] is 0 or 90. *)
Lemma resolve_options_Ok opts w w1 :
  resolve_options opts w = (Ok tt, w1) ->
  exists d r b,
    self w1 !! "dpi" = Some (PInt d) /\
    self w1 !! "rotate" = Some (PInt r) /\ (r = 0 \/ r = 90) /\
    self w1 !! "encapsulate" = Some (PBool b).
Proof.
  unfold resolve_options. intros H.
  do 11 inv_step H.
  inv_bind H as enc w2 Henc.
  apply coerce_encapsulate_world in Henc. subst w2.
  inv_step H.
  inv_bind H as r w3 Hr.
  apply getattr_Ok_inv in Hr. destruct Hr as [-> Hr]. simpl in Hr.
  rewrite lookup_insert_ne in Hr by done.
  rewrite lookup_insert_eq in Hr. inversion Hr; subst; clear Hr.
  destruct (in_0_90 (PInt a3)) eqn:E; simpl in H; [|discriminate].
  unfold ret in H. inversion H; subst; clear H. simpl.
  exists a1, a3, enc. repeat split.
  - rewrite lookup_insert_ne by done. rewrite lookup_insert_ne by done.
    apply lookup_insert_eq.
  - rewrite lookup_insert_ne by done. apply lookup_insert_eq.
  - now apply in_0_90_PInt.
  - apply lookup_insert_eq.
Qed.

Lemma settings_after_inv opts w d r b :
  settings_after opts w = Some (d, r, b) ->
  exists w1,
    resolve_options opts w = (Ok tt, w1) /\
    same_frame w w1 /\
    self w1 !! "rotate" = Some (PInt r) /\
    self w1 !! "encapsulate" = Some (PBool b) /\
    (r = 0 \/ r = 90).
Proof.
  unfold settings_after. intros H.
  pose proof (resolve_options_frame opts w) as Hf.
  destruct (resolve_options opts w) as [[[]|e] w1] eqn:E; [|discriminate].
  exists w1. split; [reflexivity|]. split; [exact Hf|].
  destruct (resolve_options_Ok _ _ _ E) as (d' & r' & b' & Hd & Hr & H090 & Hb).
  rewrite Hd, Hr, Hb in H. inversion H; subst. auto.
Qed.

(** After the options are resolved the read takes one of its two branches. *)
Lemma read_image_branch env opts w d r b :
  POPPLER_INSTALLED env = true ->
  settings_after opts w = Some (d, r, b) ->
  exists w1,
    same_frame w w1 /\
    self w1 !! "rotate" = Some (PInt r) /\
    (r = 0 \/ r = 90) /\
    _read_image env opts w =
      (if b then encapsulate_branch env w1 else rasterize_branch env w1).
Proof.
  intros Hp Hs.
  destruct (settings_after_inv _ _ _ _ _ Hs) as (w1 & Hres & Hf & Hr & Hb & H090).
  exists w1. repeat split; try apply Hf; auto.
  unfold _read_image. rewrite Hp. simpl.
  rewrite (bind_Ok _ _ _ _ _ Hres).
  unfold bind, getattr. rewrite Hb. simpl. now destruct b.
Qed.

(** The encapsulation branch always succeeds; it reads the file, names a
    temporary file and asks for the time, and never calls the renderer. *)
Lemma encapsulate_branch_eq env w :
  exists ds w',
    encapsulate_branch env w = (Ok (InfoHdr, None), w') /\
    generate_dicom_from_pdf env w = (Ok ds, World (self w) (hdr w) (f w') (trace w')) /\
    DicomHeaderDict (hdr w') = Some [[(PNone, PNone, ds)]] /\
    tags (hdr w') = Some (TagsList [TagArr [0]]) /\
    self w' = self w /\
    trace w' = (trace w ++ [EvNamedTemporaryFile ".dcm"; EvDatetimeNow])%list.
Proof.
  unfold encapsulate_branch, generate_dicom_from_pdf, bind, emit, f_read,
    modify_hdr, ret. simpl.
  eexists. eexists. split; [reflexivity|]. simpl.
  repeat split. now rewrite <- app_assoc.
Qed.

Lemma even_mod2 n : (n mod 2 =? 0)%nat = Nat.even n.
Proof.
  destruct (Nat.even n) eqn:E.
  - apply Nat.even_spec in E. destruct E as [k ->].
    apply Nat.eqb_eq. rewrite Nat.mul_comm. apply Nat.Div0.mod_mul.
  - apply Nat.eqb_neq. intros H.
    apply Nat.Div0.mod_divides in H. destruct H as [k ->].
    rewrite Nat.even_mul in E. discriminate.
Qed.

(** The padding rule of lines 259-264. *)
Lemma generate_dicom_document env w ds w' :
  generate_dicom_from_pdf env w = (Ok ds, w') ->
  let input := drop (f_pos (f w)) (f_bytes (f w)) in
  EncapsulatedDocument ds =
    (if Nat.even (length input) then input else input ++ [x00])%list.
Proof.
  unfold generate_dicom_from_pdf, bind, emit, f_read, ret.
  intros H. injection H as <- _.
  lazy beta iota zeta delta [EncapsulatedDocument].
  set (n := length (drop (f_pos (f w)) (f_bytes (f w)))).
  change (1 - (Nat.divmod n 1 0 1).2)%nat with (n mod 2)%nat.
  rewrite even_mod2. now destruct (Nat.even n).
Qed.

(** ** The claims *)

(** C3. For every input byte sequence, a read in encapsulation mode
    returns a container document whose embedded document has even length
    and starts with the input bytes: it is the input when the input length
    is even, and the input followed by one zero byte when it is odd. *)
Theorem C3_encapsulated_document_is_padded_input env opts w d r :
  POPPLER_INSTALLED env = true ->
  settings_after opts w = Some (d, r, true) ->
  let input := drop (f_pos (f w)) (f_bytes (f w)) in
  exists ds w',
    _read_image env opts w = (Ok (InfoHdr, None), w') /\
    DicomHeaderDict (hdr w') = Some [[(PNone, PNone, ds)]] /\
    Nat.even (length (EncapsulatedDocument ds)) = true /\
    take (length input) (EncapsulatedDocument ds) = input /\
    EncapsulatedDocument ds =
      (if Nat.even (length input) then input else input ++ [x00])%list.
Proof.
  intros Hp Hs input.
  destruct (read_image_branch env _ _ _ _ _ Hp Hs) as (w1 & Hf & _ & _ & Hread).
  destruct (encapsulate_branch_eq env w1) as (ds & w' & Hb & Hgen & Hd & _).
  exists ds, w'. rewrite Hread, Hb. split; [reflexivity|]. split; [exact Hd|].
  pose proof (generate_dicom_document env _ _ _ Hgen) as Hdoc. simpl in Hdoc.
  destruct Hf as (_ & Hfile & _). rewrite Hfile in Hdoc.
  fold input in Hdoc. rewrite Hdoc.
  destruct (Nat.even (length input)) eqn:E.
  - repeat split; [exact E | apply firstn_all].
  - repeat split.
    + rewrite length_app. simpl. rewrite Nat.add_1_r, Nat.even_succ.
      unfold Nat.odd. now rewrite E.
    + rewrite take_app_length. reflexivity.
Qed.

Lemma C3_witness :
  exists ds w',
    _read_image (demo_env true []) (pdfopt "encapsulate=True")
      (fresh_world [x25; x50; x44]) = (Ok (InfoHdr, None), w') /\
    DicomHeaderDict (hdr w') = Some [[(PNone, PNone, ds)]] /\
    Nat.even (length (EncapsulatedDocument ds)) = true /\
    take 3 (EncapsulatedDocument ds) = [x25; x50; x44] /\
    EncapsulatedDocument ds = [x25; x50; x44; x00].
Proof.
  apply (C3_encapsulated_document_is_padded_input
           (demo_env true []) (pdfopt "encapsulate=True")
           (fresh_world [x25; x50; x44]) 150 0).
  - reflexivity.
  - vm_compute. reflexivity.
Defined.

(** C4. For every array, destination and option set, both write entry
    points raise [WriteNotImplemented] and leave the world as it was. *)
Theorem C4_write_is_not_implemented si destination opts w :
  write_3d_numpy si destination opts w
    = (Raise (Exn WriteNotImplemented "Writing PDF files is not implemented."), w)
  /\ write_4d_numpy si destination opts w
    = (Raise (Exn WriteNotImplemented "Writing PDF files is not implemented."), w).
Proof. split; reflexivity. Qed.

(** C7. When the availability flag is false, every read fails at once with
    [OSError("Poppler is not installed")]: no attribute is seeded, the file
    is not read, the header is untouched and no collaborator is called. *)
Theorem C7_read_fails_fast_without_renderer env opts w :
  POPPLER_INSTALLED env = false ->
  _read_image env opts w = (Raise (Exn OSError "Poppler is not installed"), w).
Proof. intros H. unfold _read_image. rewrite H. reflexivity. Qed.

Lemma C7_witness :
  _read_image (demo_env false [page_2x1]) (pdfopt "dpi=300,rotate=90")
    (fresh_world [x25; x50; x44; x46])
  = (Raise (Exn OSError "Poppler is not installed"),
     fresh_world [x25; x50; x44; x46]).
Proof.
  apply (C7_read_fails_fast_without_renderer (demo_env false [page_2x1])).
  reflexivity.
Defined.

(** On the flag alone: a read whose options select encapsulation fails with the
    renderer-not-installed error when the flag is false, although the very
    same read, with the flag true, succeeds without a single call of the
    renderer: the flag is tested before the branch is chosen. *)
Lemma flag_checked_before_encapsulation env opts w d r :
  settings_after opts w = Some (d, r, true) ->
  _read_image (set_installed false env) opts w
    = (Raise (Exn OSError "Poppler is not installed"), w)
  /\ exists w',
       _read_image (set_installed true env) opts w = (Ok (InfoHdr, None), w')
       /\ trace w' = (trace w ++ [EvNamedTemporaryFile ".dcm"; EvDatetimeNow])%list.
Proof.
  intros Hs. split; [reflexivity|].
  destruct (read_image_branch (set_installed true env) _ _ _ _ _ eq_refl Hs)
    as (w1 & Hf & _ & _ & Hread).
  destruct (encapsulate_branch_eq (set_installed true env) w1)
    as (ds & w' & Hb & _ & _ & _ & _ & Htr).
  exists w'. rewrite Hread, Hb. split; [reflexivity|].
  destruct Hf as (_ & _ & Ht). now rewrite Htr, Ht.
Qed.

Example flag_checked_before_encapsulation_on_off :
  _read_image (set_installed false (demo_env true [page_2x1]))
    (pdfopt "encapsulate=on") (fresh_world [x25; x50])
    = (Raise (Exn OSError "Poppler is not installed"), fresh_world [x25; x50])
  /\ exists w',
       _read_image (set_installed true (demo_env true [page_2x1]))
         (pdfopt "encapsulate=on") (fresh_world [x25; x50])
         = (Ok (InfoHdr, None), w')
       /\ trace w' = [EvNamedTemporaryFile ".dcm"; EvDatetimeNow].
Proof.
  apply (flag_checked_before_encapsulation
           (demo_env true [page_2x1]) (pdfopt "encapsulate=on")
           (fresh_world [x25; x50]) 150 0).
  vm_compute. reflexivity.
Qed.

(** *** The option resolver (C5) *)

Lemma set_option_accepted expr w :
  accepted_entry expr = true ->
  set_option expr w
  = (Ok tt, World (apply_entry (self w) expr) (hdr w) (f w) (trace w)).
Proof.
  unfold accepted_entry, set_option, apply_entry.
  destruct (split "=" expr) as [|a [|b [|c l]]]; try discriminate.
  intros H. apply bool_decide_eq_true in H.
  destruct (decide (a ∈ legal_attributes)); [reflexivity | contradiction].
Qed.

Lemma set_option_rejected expr w :
  accepted_entry expr = false ->
  raised (fst (set_option expr w)) = Some ValueError.
Proof.
  unfold accepted_entry, set_option.
  destruct (split "=" expr) as [|a [|b [|c l]]]; try reflexivity.
  intros H. apply bool_decide_eq_false in H.
  destruct (decide (a ∈ legal_attributes)); [contradiction | reflexivity].
Qed.

Lemma for_each_set_option_spec exprs w :
  if forallb accepted_entry exprs
  then for_each exprs set_option w
       = (Ok tt, World (fold_left apply_entry exprs (self w))
                   (hdr w) (f w) (trace w))
  else raised (fst (for_each exprs set_option w)) = Some ValueError.
Proof.
  revert w. induction exprs as [|e exprs IH]; intros w; simpl.
  - now destruct w.
  - destruct (accepted_entry e) eqn:E; simpl.
    + unfold bind. rewrite (set_option_accepted _ _ E).
      specialize (IH (World (apply_entry (self w) e) (hdr w) (f w) (trace w))).
      destruct (forallb accepted_entry exprs); exact IH.
    + unfold bind. pose proof (set_option_rejected e w E) as H.
      destruct (set_option e w) as [[u|x] w1]; [discriminate | exact H].
Qed.

Lemma parse_pdfopt_string s w :
  parse_pdfopt (pdfopt s) w = for_each (entries s) set_option w.
Proof.
  unfold parse_pdfopt, pdfopt, entries.
  rewrite lookup_singleton_eq. simpl.
  destruct (String.eqb s ""); reflexivity.
Qed.

Example C5_accepts_all_legal :
  fst (parse_pdfopt (pdfopt "dpi=300,rotate=90,encapsulate=on") (fresh_world []))
  = Ok tt.
Proof. vm_compute. reflexivity. Qed.

Example C5_rejects_unknown_key :
  fst (parse_pdfopt (pdfopt "dpi=300,zoom=2") (fresh_world []))
  = Raise (Exn ValueError "Unknown attribute zoom set in psopt").
Proof. vm_compute. reflexivity. Qed.

(** C5, as stated, fails: every entry of ["dpi=1=2"] has the legal key
    [dpi], and yet the resolver does not accept it. *)
Lemma C5_counterexample :
  Forall (fun e => entry_key e ∈ legal_attributes) (split "," "dpi=1=2")
  /\ fst (parse_pdfopt (pdfopt "dpi=1=2") (fresh_world []))
     = Raise (Exn ValueError "too many values to unpack (expected 2)").
Proof.
  split.
  - constructor; [|constructor].
    change (entry_key "dpi=1=2") with "dpi". set_solver.
  - vm_compute. reflexivity.
Qed.

(** C5, amended. For every option string the resolver splits it on commas
    and each entry on ['=']; when every entry has exactly one ['='] and a
    key in [{dpi, rotate, encapsulate}] the entries are accepted, each
    setting its own attribute to the text after the ['='], and in every
    other case (a key outside the set, no ['='], more than one ['='])
    the resolver raises [ValueError]. *)
Theorem C5_resolver_accepts_exactly_legal_pairs s w :
  if forallb accepted_entry (entries s)
  then parse_pdfopt (pdfopt s) w
       = (Ok tt, World (fold_left apply_entry (entries s) (self w))
                   (hdr w) (f w) (trace w))
  else raised (fst (parse_pdfopt (pdfopt s) w)) = Some ValueError.
Proof.
  rewrite parse_pdfopt_string. apply for_each_set_option_spec.
Qed.

(** *** The missing default of [encapsulate] (C1, C6) *)

Lemma set_option_keeps_encapsulate expr w :
  sets_encapsulate expr = false ->
  self (snd (set_option expr w)) !! "encapsulate" = self w !! "encapsulate".
Proof.
  unfold sets_encapsulate, set_option.
  destruct (split "=" expr) as [|a [|b [|c l]]]; try reflexivity.
  intros H. apply String.eqb_neq in H.
  destruct (decide (a ∈ legal_attributes)); [|reflexivity].
  simpl. now rewrite lookup_insert_ne.
Qed.

Lemma for_each_keeps_encapsulate exprs w :
  forallb (fun e => negb (sets_encapsulate e)) exprs = true ->
  self (snd (for_each exprs set_option w)) !! "encapsulate"
  = self w !! "encapsulate".
Proof.
  revert w. induction exprs as [|e exprs IH]; intros w H; simpl in *.
  - reflexivity.
  - apply andb_true_iff in H. destruct H as [He Hr].
    apply negb_true_iff in He.
    pose proof (set_option_keeps_encapsulate e w He) as K.
    unfold bind. destruct (set_option e w) as [[u|x] w1]; simpl in *.
    + rewrite IH by exact Hr. exact K.
    + exact K.
Qed.

Lemma parse_pdfopt_keeps_encapsulate opts w :
  omits_encapsulate opts = true ->
  self (snd (parse_pdfopt opts w)) !! "encapsulate" = self w !! "encapsulate".
Proof.
  unfold omits_encapsulate, parse_pdfopt. intros Ho.
  destruct (opts !! "pdfopt") as [v|] eqn:E; [|reflexivity].
  destruct (truthy v); [|reflexivity].
  destruct v as [| b | z | s]; try reflexivity.
  unfold bind, lift, call_split.
  now apply for_each_keeps_encapsulate.
Qed.

(** A read that resolves its options has found a string in
    [self.encapsulate] after the parsing loop. *)
Lemma resolve_options_needs_encapsulate opts w w1 :
  resolve_options opts w = (Ok tt, w1) ->
  has_str_encapsulate
    (self (snd (parse_pdfopt opts
                  (World (<["rotate" := PInt 0]> (<["dpi" := PInt 150]> (self w)))
                     (hdr w) (f w) (trace w))))) = true.
Proof.
  unfold resolve_options. intros H.
  do 11 inv_step H.
  match goal with
  | K : parse_pdfopt _ _ = _ |- _ => rewrite K
  end.
  simpl in *.
  match goal with
  | K : _ !! "encapsulate" = Some ?a, L : call_lower ?a = Ok _ |- _ =>
      do 2 (rewrite lookup_insert_ne in K by done);
      unfold has_str_encapsulate; rewrite K;
      destruct a; simpl in L; try discriminate; reflexivity
  end.
Qed.

(** With no option string at all, a new instance fails at line 85, the
    two seeded defaults in place. *)
Lemma read_without_pdfopt env opts w :
  POPPLER_INSTALLED env = true ->
  opts !! "pdfopt" = None ->
  self w !! "encapsulate" = None ->
  _read_image env opts w
  = (Raise (Exn AttributeError
              "'PDFPlugin' object has no attribute 'encapsulate'"),
     World (<["rotate" := PInt 0]> (<["dpi" := PInt 150]> (self w)))
       (hdr w) (f w) (trace w)).
Proof.
  intros Hp Hnone Henc.
  unfold _read_image. rewrite Hp. simpl.
  unfold resolve_options, parse_pdfopt. rewrite Hnone.
  unfold bind, setattr, getattr, ret, lift. simpl.
  repeat (rewrite ?lookup_insert_eq; rewrite ?lookup_insert_ne by done; simpl).
  rewrite Henc. do 2 f_equal.
  apply map_eq. intros k. rewrite !lookup_insert.
  repeat case_decide; congruence.
Qed.

Example read_default_options_fresh_instance :
  fst (_read_image (demo_env true [page_2x1]) ∅ (fresh_world [x25; x50]))
  = Raise (Exn AttributeError "'PDFPlugin' object has no attribute 'encapsulate'").
Proof. vm_compute. reflexivity. Qed.

(** A second read on the same instance finds the [bool] left by the first
    one, which has no [lower]. *)
Example read_again_on_used_instance :
  let w1 := snd (_read_image (demo_env true [page_2x1])
                   (pdfopt "encapsulate=false") (fresh_world [x25; x50])) in
  self w1 !! "encapsulate" = Some (PBool false)
  /\ fst (_read_image (demo_env true [page_2x1]) ∅ w1)
     = Raise (Exn AttributeError "object has no attribute 'lower'").
Proof. vm_compute. split; reflexivity. Qed.

(** C1, on the code: the defaults seeded before parsing are [dpi = 150]
    and [rotate = 0] only, [encapsulate] has none.  A read whose options
    omit [encapsulate], on an instance that holds no string in that
    attribute (a new instance, or one that has completed a read and holds a
    [bool]), never completes. *)
Theorem C1_read_without_encapsulate_option_fails env opts w :
  POPPLER_INSTALLED env = true ->
  has_str_encapsulate (self w) = false ->
  omits_encapsulate opts = true ->
  is_ok (fst (_read_image env opts w)) = false.
Proof.
  intros Hp Hno Ho.
  destruct (_read_image env opts w) as [[x|e] w'] eqn:E; [|reflexivity].
  exfalso. unfold _read_image in E. rewrite Hp in E. simpl in E.
  inv_bind E as u w1 Hres. destruct u.
  apply resolve_options_needs_encapsulate in Hres.
  unfold has_str_encapsulate in Hres, Hno.
  rewrite parse_pdfopt_keeps_encapsulate in Hres by exact Ho.
  simpl in Hres. do 2 (rewrite lookup_insert_ne in Hres by done).
  rewrite Hres in Hno. discriminate.
Qed.

Lemma C1_witness :
  is_ok (fst (_read_image (demo_env true [page_2x1]) (pdfopt "dpi=300,rotate=90")
                (fresh_world [x25; x50]))) = false.
Proof.
  apply (C1_read_without_encapsulate_option_fails
           (demo_env true [page_2x1]) (pdfopt "dpi=300,rotate=90")
           (fresh_world [x25; x50])).
  - reflexivity.
  - vm_compute. reflexivity.
  - vm_compute. reflexivity.
Defined.

Example rotate_45_alone :
  fst (_read_image (demo_env true [page_2x1]) (pdfopt "rotate=45")
         (fresh_world [x25; x50]))
  = Raise (Exn AttributeError "'PDFPlugin' object has no attribute 'encapsulate'").
Proof. vm_compute. reflexivity. Qed.

Example rotate_45_with_encapsulate :
  fst (_read_image (demo_env true [page_2x1]) (pdfopt "rotate=45,encapsulate=false")
         (fresh_world [x25; x50]))
  = Raise (Exn ValueError "psopt rotate value 45 is not implemented").
Proof. vm_compute. reflexivity. Qed.

(** C6, on the code: take any read whose options parse and whose [dpi] and
    [rotate] coerce to integers, [rotate] being neither 0 nor 90.  The test
    of [rotate] (line 86) comes after [self.encapsulate.lower()]
    (line 85): the read raises the [ValueError] of the claim when the
    instance holds a string in [encapsulate], and [AttributeError]
    when it does not, as with [rotate=45] alone on a new instance. *)
Theorem C6_rotate_check_comes_after_encapsulate env opts w w0 vd d vr r :
  POPPLER_INSTALLED env = true ->
  parse_pdfopt opts (seeded w) = (Ok tt, w0) ->
  self w0 !! "dpi" = Some vd -> int vd = Ok d ->
  self w0 !! "rotate" = Some vr -> int vr = Ok r ->
  r <> 0 -> r <> 90 ->
  raised (fst (_read_image env opts w))
  = Some (if has_str_encapsulate (self w0) then ValueError else AttributeError).
Proof.
  intros Hp Hparse Hd Hid Hr Hir H0 H90.
  unfold _read_image. rewrite Hp. simpl.
  unfold resolve_options.
  unfold bind at 1. unfold bind at 1. unfold bind at 1. unfold bind at 1.
  rewrite !setattr_eq. simpl. fold (seeded w).
  unfold bind at 1. unfold bind at 1. rewrite Hparse.
  unfold bind, getattr, setattr, lift, ret, raise. simpl.
  rewrite Hd, Hid. simpl.
  rewrite lookup_insert_ne by done. rewrite Hr, Hir. simpl.
  do 2 (rewrite lookup_insert_ne by done).
  unfold has_str_encapsulate.
  destruct (self w0 !! "encapsulate") as [[| b | z | e]|] eqn:Henc;
    try reflexivity.
  simpl.
  assert (in_0_90 (PInt r) = false) as Hin.
  { simpl. apply bool_decide_eq_false.
    rewrite elem_of_union, !elem_of_singleton. intros [?|?]; congruence. }
  destruct (String.eqb (lower e) "true"); simpl.
  - rewrite lookup_insert_ne by done. rewrite lookup_insert_eq.
    rewrite Hin. reflexivity.
  - do 2 (rewrite lookup_insert_ne by done). rewrite Henc. simpl.
    rewrite lookup_insert_ne by done. rewrite lookup_insert_eq.
    rewrite Hin. reflexivity.
Qed.

Lemma C6_witness :
  raised (fst (_read_image (demo_env true [page_2x1]) (pdfopt "rotate=45")
                 (fresh_world [x25; x50])))
  = Some AttributeError.
Proof.
  apply (C6_rotate_check_comes_after_encapsulate
           (demo_env true [page_2x1]) (pdfopt "rotate=45")
           (fresh_world [x25; x50])
           (snd (parse_pdfopt (pdfopt "rotate=45") (seeded (fresh_world [x25; x50]))))
           (PInt 150) 150 (PStr "45") 45).
  - reflexivity.
  - vm_compute. reflexivity.
  - vm_compute. reflexivity.
  - reflexivity.
  - vm_compute. reflexivity.
  - reflexivity.
  - lia.
  - lia.
Defined.

(** *** Stacking, rotation and the axes (C2, C8, C9) *)

Lemma sequence_opt_map_Some {A B} (g : A -> option B) (l : list A) :
  (forall x, In x l -> exists y, g x = Some y) ->
  exists ys, sequence_opt (map g l) = Some ys.
Proof.
  induction l as [|x l IH]; intros H; simpl.
  - now exists [].
  - destruct (H x (or_introl eq_refl)) as [y ->].
    destruct IH as [ys ->]; [intros z Hz; apply H; now right|].
    now exists (y :: ys).
Qed.

Lemma sequence_opt_map_id {A} (g : A -> option A) (l : list A) :
  (forall x, In x l -> g x = Some x) ->
  sequence_opt (map g l) = Some l.
Proof.
  induction l as [|x l IH]; intros H; simpl.
  - reflexivity.
  - rewrite (H x (or_introl eq_refl)).
    rewrite IH; [reflexivity | intros z Hz; apply H; now right].
Qed.

(** A value of the shape of its target is always accepted. *)
Lemma broadcast_same_shape u s d : exists blk, broadcast u s s d = Some blk.
Proof.
  revert d. induction s as [|v s IH]; intros d; simpl.
  - eauto.
  - rewrite Nat.eqb_refl.
    destruct (sequence_opt_map_Some (broadcast u s s) (chunks (size_of s * u) v d))
      as [ys ->]; [intros x _; apply IH | eauto].
Qed.

Lemma chunks_concat n k d :
  length d = (k * n)%nat ->
  List.concat (chunks n k d) = d
  /\ forall c, In c (chunks n k d) -> length c = n.
Proof.
  revert d. induction k as [|k IH]; intros d H; simpl in *.
  - destruct d; [|discriminate].
    split; [reflexivity | intros c []].
  - destruct (IH (drop n d)) as [Hc Hl].
    { rewrite length_drop. lia. }
    split.
    + rewrite Hc. apply take_drop.
    + intros c [<-|Hin]; [|now apply Hl].
      rewrite length_take. lia.
Qed.

(** With a buffer of the right size it is stored as it is. *)
Lemma broadcast_same_shape_id u s d :
  length d = (size_of s * u)%nat -> broadcast u s s d = Some d.
Proof.
  revert d. induction s as [|v s IH]; intros d H; simpl in *.
  - rewrite firstn_all2 by lia. reflexivity.
  - rewrite Nat.eqb_refl.
    destruct (chunks_concat (size_of s * u) v d) as [Hc Hl]; [lia|].
    rewrite sequence_opt_map_id; [now rewrite Hc|].
    intros c Hin. apply IH. now apply Hl.
Qed.

Lemma setitem_shape a i v a' :
  setitem a i v = Ok a' -> shape a' = shape a /\ dt a' = dt a.
Proof.
  unfold setitem. destruct (shape a) as [|n sub] eqn:E; [discriminate|].
  destruct (i <? n)%nat; [|discriminate].
  destruct (broadcast _ _ _ _); [|discriminate].
  intros H. inversion H; subst; simpl. auto.
Qed.

Lemma fill_shape image_list : forall si i si',
  fill si i image_list = Ok si' -> shape si' = shape si /\ dt si' = dt si.
Proof.
  induction image_list as [|img rest IH]; intros si i si' H; simpl in H.
  - inversion H; auto.
  - destruct (setitem si i (asarray img)) as [si1|e] eqn:E; [|discriminate].
    apply setitem_shape in E. apply IH in H.
    destruct E, H. split; congruence.
Qed.

(** The shape and the element type of a stack (line 107 and 108). *)
Lemma stack_pages_shape image_list si :
  stack_pages image_list = Ok si ->
  exists img rest,
    image_list = img :: rest /\
    shape si = [length image_list; height img; width img; 3%nat] /\
    dt si = uint8.
Proof.
  unfold stack_pages. destruct image_list as [|img rest]; [discriminate|].
  intros H. apply fill_shape in H. simpl in H. destruct H as [Hs Hd].
  exists img, rest. auto.
Qed.

Lemma setitem_same_shape a i v n sub :
  shape a = n :: sub -> (i < n)%nat -> shape v = sub ->
  exists a', setitem a i v = Ok a'.
Proof.
  intros Ha Hi Hv. unfold setitem. rewrite Ha, Hv.
  apply Nat.ltb_lt in Hi. rewrite Hi.
  destruct (broadcast_same_shape (itemsize (dt a)) sub (data v)) as [blk ->].
  eauto.
Qed.

(** One page is always stacked. *)
Lemma stack_one_page img : exists si, stack_pages [img] = Ok si.
Proof.
  unfold stack_pages, fill. change (length [img]) with 1%nat.
  destruct (setitem_same_shape
              (zeros [1%nat; height img; width img; 3%nat] uint8) 0 (asarray img)
              1 [height img; width img; 3%nat]) as [a' ->];
    [reflexivity | lia | reflexivity | eauto].
Qed.

Lemma page_fits_inv h w p :
  page_fits h w p = true ->
  height p = h /\ width p = w /\ length (pixels p) = (h * w * 3)%nat.
Proof.
  unfold page_fits. intros H.
  apply andb_true_iff in H. destruct H as [H H3].
  apply andb_true_iff in H. destruct H as [H1 H2].
  apply Nat.eqb_eq in H1, H2, H3. auto.
Qed.

Lemma setitem_block a i v n sub :
  shape a = n :: sub -> dt a = uint8 -> (i < n)%nat ->
  shape v = sub -> length (data v) = size_of sub ->
  setitem a i v
  = Ok (NDArray (shape a) uint8
          (take (i * size_of sub) (data a) ++ data v
           ++ drop ((i + 1) * size_of sub) (data a))).
Proof.
  intros Ha Hd Hi Hv Hl. unfold setitem. rewrite Ha, Hv, Hd.
  apply Nat.ltb_lt in Hi. rewrite Hi.
  rewrite broadcast_same_shape_id by (simpl; lia).
  simpl itemsize. rewrite Nat.mul_1_r. reflexivity.
Qed.

Lemma size_of_page h w : size_of [h; w; 3%nat] = (h * w * 3)%nat.
Proof. simpl. lia. Qed.

(** The loop of lines 110-112 on pages of one size: the buffer behind the
    pages already written is untouched, the pages follow in their order. *)
Lemma fill_uniform n h w pages : forall si i,
  shape si = [n; h; w; 3%nat] -> dt si = uint8 ->
  length (data si) = (n * (h * w * 3))%nat ->
  (i + length pages = n)%nat ->
  forallb (page_fits h w) pages = true ->
  fill si i pages
  = Ok (NDArray [n; h; w; 3%nat] uint8
          (take (i * (h * w * 3)) (data si) ++ List.concat (map pixels pages))).
Proof.
  induction pages as [|p rest IH]; intros si i Hs Hd Hl Hi Hp; simpl in *.
  - rewrite Nat.add_0_r in Hi. subst i.
    rewrite app_nil_r. rewrite firstn_all2 by lia.
    destruct si; simpl in *; congruence.
  - apply andb_true_iff in Hp. destruct Hp as [Hp Hrest].
    apply page_fits_inv in Hp. destruct Hp as (Hh & Hw & Hpx).
    rewrite (setitem_block si i (asarray p) n [h; w; 3%nat]); auto; try lia.
    2: { unfold asarray. simpl. congruence. }
    2: { rewrite size_of_page. simpl data. lia. }
    rewrite size_of_page. simpl data.
    set (sz := (h * w * 3)%nat) in *.
    assert (Hle : (i * sz + sz <= length (data si))%nat) by nia.
    rewrite IH; simpl; auto; try lia.
    + do 2 f_equal.
      rewrite (app_assoc (take (i * sz) (data si))).
      rewrite take_app_length'.
      * now rewrite <- app_assoc.
      * rewrite length_app, length_take. lia.
    + rewrite !length_app, length_take, length_drop. nia.
Qed.

(** Pages of one size are stacked in document order. *)
Lemma stack_pages_uniform p0 rest :
  uniform_pages (p0 :: rest) = true ->
  stack_pages (p0 :: rest)
  = Ok (NDArray [S (length rest); height p0; width p0; 3%nat] uint8
          (List.concat (map pixels (p0 :: rest)))).
Proof.
  intros H. unfold stack_pages, uniform_pages in *.
  rewrite (fill_uniform (length (p0 :: rest)) (height p0) (width p0));
    auto.
  unfold zeros. simpl. rewrite repeat_length. lia.
Qed.

Lemma rasterize_branch_run env w r :
  self w !! "rotate" = Some (PInt r) ->
  match rasterized env (f w) r with
  | Ok si =>
      exists w',
        rasterize_branch env w = (Ok (InfoTrue, Some si), w') /\
        color (hdr w') = Some true /\
        photometricInterpretation (hdr w') = Some "RGB"
  | Raise e => fst (rasterize_branch env w) = Raise e
  end.
Proof.
  intros Hr. unfold rasterized, rasterize_branch, render.
  unfold bind, f_read, emit, lift, modify_hdr, getattr, ret. simpl.
  destruct (convert_from_bytes env (drop (f_pos (f w)) (f_bytes (f w))))
    as [image_list|e].
  - destruct (stack_pages image_list) as [si|e]; [|reflexivity].
    simpl. rewrite Hr. simpl.
    destruct (r =? 90); simpl.
    + destruct (rot90_axes12 si) as [si'|e]; [|reflexivity].
      eexists. split; [reflexivity|]. simpl. auto.
    + eexists. split; [reflexivity|]. simpl. auto.
  - destruct (cls e); reflexivity.
Qed.

(** Shapes: a stack has four axes, a rotation swaps the second and third,
    and the test of line 120, made for three axes, never fires. *)
Lemma rasterized_shape env fl r si :
  rasterized env fl r = Ok si ->
  exists image_list img rest,
    convert_from_bytes env (drop (f_pos fl) (f_bytes fl)) = Ok image_list /\
    image_list = img :: rest /\
    dt si = uint8 /\
    shape si =
      (if r =? 90
       then [length image_list; width img; height img; 3%nat]
       else [length image_list; height img; width img; 3%nat]).
Proof.
  unfold rasterized.
  destruct (convert_from_bytes env _) as [image_list|e];
    [|destruct (cls e); discriminate].
  destruct (stack_pages image_list) as [si0|e] eqn:Es; [|discriminate].
  destruct (stack_pages_shape _ _ Es) as (img & rest & -> & Hs & Hd).
  intros H. exists (img :: rest), img, rest.
  split; [reflexivity|]. split; [reflexivity|].
  destruct (r =? 90).
  - unfold rot90_axes12 in H. rewrite Hs in H. simpl in H.
    inversion H; subst; simpl. auto.
  - unfold ndim in H. rewrite Hs in H. simpl in H.
    inversion H; subst. auto.
Qed.

(** The same file fails the same way whatever [rotate] is. *)
Lemma rasterized_same_outcome env fl e :
  rasterized env fl 0 = Raise e -> rasterized env fl 90 = Raise e.
Proof.
  unfold rasterized.
  destruct (convert_from_bytes env _) as [image_list|e0]; [|auto].
  destruct (stack_pages image_list) as [si0|e0] eqn:Es; [|auto].
  simpl. discriminate.
Qed.

Lemma rasterized_rotates env fl si0 :
  rasterized env fl 0 = Ok si0 -> exists si90, rasterized env fl 90 = Ok si90.
Proof.
  unfold rasterized.
  destruct (convert_from_bytes env _) as [image_list|e0];
    [|destruct (cls e0); discriminate].
  destruct (stack_pages image_list) as [si|e0] eqn:Es; [|discriminate].
  destruct (stack_pages_shape _ _ Es) as (img & rest & -> & Hs & Hd).
  intros _. simpl. unfold rot90_axes12. rewrite Hs. eauto.
Qed.

(** [_set_tags] on a colour array of four axes: slice, row, column, rgb. *)
Lemma set_tags_4d il si w n h wd c :
  color (hdr w) = Some true ->
  shape si = [n; h; wd; c] ->
  exists w',
    _set_tags il si w = (Ok tt, w') /\
    axes (hdr w') =
      Some [UniformLengthAxis "slice" 0 n 1%Q;
            UniformLengthAxis "row" 0 h 1%Q;
            UniformLengthAxis "column" 0 wd 1%Q;
            VariableAxis "rgb" ["r"; "g"; "b"]] /\
    tags (hdr w') = Some (TagsDict (fill_tags (seq 0 n) ∅)).
Proof.
  intros Hc Hs. unfold _set_tags.
  unfold bind, modify_hdr, get_hdr, lift, ret. simpl.
  rewrite Hc, Hs. simpl.
  eexists. split; [reflexivity|]. simpl. auto.
Qed.

(** [_set_tags] on a colour array of three axes: row, column, rgb. *)
Lemma set_tags_3d il si w h wd c :
  color (hdr w) = Some true ->
  shape si = [h; wd; c] ->
  exists w',
    _set_tags il si w = (Ok tt, w') /\
    axes (hdr w') =
      Some [UniformLengthAxis "row" 0 h 1%Q;
            UniformLengthAxis "column" 0 wd 1%Q;
            VariableAxis "rgb" ["r"; "g"; "b"]].
Proof.
  intros Hc Hs. unfold _set_tags.
  unfold bind, modify_hdr, get_hdr, lift, ret. simpl.
  rewrite Hc, Hs. simpl.
  eexists. split; [reflexivity|]. simpl. auto.
Qed.

Lemma rasterized_one_page env fl r img :
  convert_from_bytes env (drop (f_pos fl) (f_bytes fl)) = Ok [img] ->
  exists si, rasterized env fl r = Ok si.
Proof.
  intros Hc. unfold rasterized. rewrite Hc.
  destruct (stack_one_page img) as [si0 Hs]. rewrite Hs.
  destruct (stack_pages_shape _ _ Hs) as (img' & rest & _ & Hsh & _).
  destruct (r =? 90); [|eauto].
  unfold rot90_axes12. rewrite Hsh. eauto.
Qed.

(** The read in rasterization mode, in terms of [rasterized]. *)
Lemma read_image_rasterized env opts w d r :
  POPPLER_INSTALLED env = true ->
  settings_after opts w = Some (d, r, false) ->
  match rasterized env (f w) r with
  | Ok si =>
      exists w',
        _read_image env opts w = (Ok (InfoTrue, Some si), w') /\
        color (hdr w') = Some true
  | Raise e => fst (_read_image env opts w) = Raise e
  end.
Proof.
  intros Hp Hs.
  destruct (read_image_branch env _ _ _ _ _ Hp Hs)
    as (w1 & (_ & Hf & _) & Hr & _ & ->).
  pose proof (rasterize_branch_run env w1 r Hr) as H. rewrite Hf in H.
  destruct (rasterized env (f w) r) as [si|e]; [|exact H].
  destruct H as (w' & H1 & H2 & _). eauto.
Qed.

Example single_page_default_rotation :
  fst (_read_image (demo_env true [page_2x1]) (pdfopt "encapsulate=false")
         (fresh_world [x25; x50]))
  = Ok (InfoTrue,
        Some (NDArray [1; 2; 1; 3]%nat uint8 [x0a; x0b; x0c; x0d; x0e; x0f])).
Proof. vm_compute. reflexivity. Qed.

(** C2, on the code: a single page comes back with four axes, the leading
    axis of length 1 still there, since the test of line 120 asks for three
    axes while every stack has four; the axes derived from that array start
    with a slice axis of length 1. *)
Theorem C2_single_page_keeps_leading_axis env opts w d r img :
  POPPLER_INSTALLED env = true ->
  settings_after opts w = Some (d, r, false) ->
  convert_from_bytes env (drop (f_pos (f w)) (f_bytes (f w))) = Ok [img] ->
  exists si w' w'',
    _read_image env opts w = (Ok (InfoTrue, Some si), w') /\
    dt si = uint8 /\
    shape si = (if (r =? 90)%Z then [1; width img; height img; 3]
                else [1; height img; width img; 3])%nat /\
    _set_tags [(InfoTrue, Some si)] si w' = (Ok tt, w'') /\
    axes (hdr w'') =
      Some [UniformLengthAxis "slice" 0 1 1%Q;
            UniformLengthAxis "row" 0 (nth 1 (shape si) 0%nat) 1%Q;
            UniformLengthAxis "column" 0 (nth 2 (shape si) 0%nat) 1%Q;
            VariableAxis "rgb" ["r"; "g"; "b"]].
Proof.
  intros Hp Hs Hc.
  pose proof (read_image_rasterized env opts w d r Hp Hs) as Hread.
  destruct (rasterized_one_page env (f w) r img Hc) as [si Hsi].
  rewrite Hsi in Hread. destruct Hread as (w' & Hread & Hcol).
  destruct (rasterized_shape _ _ _ _ Hsi)
    as (il & img' & rest & Hc' & -> & Hd & Hsh).
  rewrite Hc in Hc'. inversion Hc'; subst img' rest. simpl length in Hsh.
  assert (exists h wd, shape si = [1; h; wd; 3]%nat) as (h & wd & Hsh').
  { destruct (r =? 90); eauto. }
  destruct (set_tags_4d [(InfoTrue, Some si)] si w' _ _ _ _ Hcol Hsh')
    as (w'' & Ht & Ha & _).
  exists si, w', w''. repeat split; auto.
  rewrite Ha, Hsh'. reflexivity.
Qed.

Lemma C2_witness :
  exists si w' w'',
    _read_image (demo_env true [page_2x1]) (pdfopt "encapsulate=false")
      (fresh_world [x25; x50]) = (Ok (InfoTrue, Some si), w') /\
    dt si = uint8 /\
    shape si = [1; 2; 1; 3]%nat /\
    _set_tags [(InfoTrue, Some si)] si w' = (Ok tt, w'') /\
    axes (hdr w'') =
      Some [UniformLengthAxis "slice" 0 1 1%Q;
            UniformLengthAxis "row" 0 (nth 1 (shape si) 0%nat) 1%Q;
            UniformLengthAxis "column" 0 (nth 2 (shape si) 0%nat) 1%Q;
            VariableAxis "rgb" ["r"; "g"; "b"]].
Proof.
  apply (C2_single_page_keeps_leading_axis
           (demo_env true [page_2x1]) (pdfopt "encapsulate=false")
           (fresh_world [x25; x50]) 150 0 page_2x1).
  - reflexivity.
  - vm_compute. reflexivity.
  - reflexivity.
Defined.

(** C8, as stated, fails: a document whose two pages differ in size (one
    upright, one lying) rasterizes to two pages and no array is returned. *)
Lemma C8_counterexample :
  stack_pages [page_2x1; page_1x2]
  = Raise (Exn ValueError "could not broadcast input array")
  /\ fst (_read_image (demo_env true [page_2x1; page_1x2])
            (pdfopt "encapsulate=false") (fresh_world [x25; x50]))
     = Raise (Exn ValueError "could not broadcast input array").
Proof. split; vm_compute; reflexivity. Qed.

(** A rotation of a stack of four axes swaps the second and the third. *)
Lemma rot90_4d a n h wd c :
  shape a = [n; h; wd; c] ->
  exists a', rot90_axes12 a = Ok a' /\ shape a' = [n; wd; h; c] /\ dt a' = dt a.
Proof.
  intros H. unfold rot90_axes12. rewrite H.
  eexists. split; [reflexivity|]. split; reflexivity.
Qed.

(** C8, amended. For every input that rasterizes to n >= 2 pages that all
    have the height and width of the first page, the pages are stacked in
    document order into one array of shape (n, height, width, 3) with
    8-bit unsigned samples; the read returns that array when [rotate] is 0
    and its rotation when [rotate] is 90, and the axes derived from the
    returned array are a slice axis of length n, then the row and column
    axes, then the colour axis. *)
Theorem C8_pages_of_one_size_are_stacked env opts w d r p0 rest :
  POPPLER_INSTALLED env = true ->
  settings_after opts w = Some (d, r, false) ->
  convert_from_bytes env (drop (f_pos (f w)) (f_bytes (f w))) = Ok (p0 :: rest) ->
  (2 <= length (p0 :: rest))%nat ->
  uniform_pages (p0 :: rest) = true ->
  let n := length (p0 :: rest) in
  let stack :=
    NDArray [n; height p0; width p0; 3%nat] uint8
      (List.concat (map pixels (p0 :: rest))) in
  stack_pages (p0 :: rest) = Ok stack
  /\ exists si w' w'' rows columns,
       _read_image env opts w = (Ok (InfoTrue, Some si), w') /\
       (if r =? 90 then rot90_axes12 stack = Ok si else si = stack) /\
       shape si = [n; rows; columns; 3%nat] /\
       _set_tags [(InfoTrue, Some si)] si w' = (Ok tt, w'') /\
       axes (hdr w'') =
         Some [UniformLengthAxis "slice" 0 n 1%Q;
               UniformLengthAxis "row" 0 rows 1%Q;
               UniformLengthAxis "column" 0 columns 1%Q;
               VariableAxis "rgb" ["r"; "g"; "b"]].
Proof.
  intros Hp Hs Hc Hn Hu n stack.
  pose proof (stack_pages_uniform _ _ Hu) as Hstack.
  change (stack_pages (p0 :: rest) = Ok stack) in Hstack.
  split; [exact Hstack|].
  pose proof (read_image_rasterized env opts w d r Hp Hs) as Hread.
  unfold rasterized in Hread. rewrite Hc, Hstack in Hread.
  destruct (r =? 90) eqn:Er.
  - destruct (rot90_4d stack n (height p0) (width p0) 3%nat eq_refl)
      as (si & Hrot & Hsh & _).
    rewrite Hrot in Hread. unfold ndim in Hread. rewrite Hsh in Hread.
    simpl in Hread. destruct Hread as (w' & Hread & Hcol).
    destruct (set_tags_4d [(InfoTrue, Some si)] si w' _ _ _ _ Hcol Hsh)
      as (w'' & Ht & Ha & _).
    exists si, w', w'', (width p0), (height p0). auto.
  - simpl in Hread. destruct Hread as (w' & Hread & Hcol).
    destruct (set_tags_4d [(InfoTrue, Some stack)] stack w' _ _ _ _ Hcol eq_refl)
      as (w'' & Ht & Ha & _).
    exists stack, w', w'', (height p0), (width p0). auto.
Qed.

Lemma C8_witness :
  let stack :=
    NDArray [2; 2; 1; 3]%nat uint8
      [x0a; x0b; x0c; x0d; x0e; x0f; x0a; x0b; x0c; x0d; x0e; x0f] in
  stack_pages [page_2x1; page_2x1] = Ok stack
  /\ exists si w' w'' rows columns,
       _read_image (demo_env true [page_2x1; page_2x1])
         (pdfopt "encapsulate=false") (fresh_world [x25; x50])
       = (Ok (InfoTrue, Some si), w') /\
       si = stack /\
       shape si = [2%nat; rows; columns; 3%nat] /\
       _set_tags [(InfoTrue, Some si)] si w' = (Ok tt, w'') /\
       axes (hdr w'') =
         Some [UniformLengthAxis "slice" 0 2 1%Q;
               UniformLengthAxis "row" 0 rows 1%Q;
               UniformLengthAxis "column" 0 columns 1%Q;
               VariableAxis "rgb" ["r"; "g"; "b"]].
Proof.
  apply (C8_pages_of_one_size_are_stacked
           (demo_env true [page_2x1; page_2x1]) (pdfopt "encapsulate=false")
           (fresh_world [x25; x50]) 150 0 page_2x1 [page_2x1]).
  - reflexivity.
  - vm_compute. reflexivity.
  - reflexivity.
  - simpl. lia.
  - reflexivity.
Defined.

(** C9. For every input, when the read with [rotate = 0] returns an array
    with r rows and c columns, the read of the same input with
    [rotate = 90] returns an array with c rows and r columns; when the
    first fails the second fails the same way. *)
Theorem C9_rotation_swaps_row_and_column_extents env opts0 opts90 w d0 d90 :
  POPPLER_INSTALLED env = true ->
  settings_after opts0 w = Some (d0, 0, false) ->
  settings_after opts90 w = Some (d90, 90, false) ->
  match fst (_read_image env opts0 w) with
  | Ok (_, Some si0) =>
      exists si90 n rows columns,
        fst (_read_image env opts90 w) = Ok (InfoTrue, Some si90) /\
        shape si0 = [n; rows; columns; 3%nat] /\
        shape si90 = [n; columns; rows; 3%nat]
  | Ok (_, None) => False
  | Raise e => fst (_read_image env opts90 w) = Raise e
  end.
Proof.
  intros Hp H0 H90.
  pose proof (read_image_rasterized env opts0 w d0 0 Hp H0) as R0.
  pose proof (read_image_rasterized env opts90 w d90 90 Hp H90) as R90.
  destruct (rasterized env (f w) 0) as [si0|e] eqn:E0.
  - destruct R0 as (w0 & -> & _). simpl.
    destruct (rasterized_rotates _ _ _ E0) as [si90 E90].
    rewrite E90 in R90. destruct R90 as (w90 & -> & _). simpl.
    destruct (rasterized_shape _ _ _ _ E0) as (il & img & rest & Hc & -> & _ & S0).
    destruct (rasterized_shape _ _ _ _ E90) as (il' & img' & rest' & Hc' & -> & _ & S90).
    rewrite Hc in Hc'. inversion Hc'; subst img' rest'.
    simpl in S0, S90. eauto 10.
  - rewrite R0. apply rasterized_same_outcome in E0.
    rewrite E0 in R90. exact R90.
Qed.

Lemma C9_witness :
  exists si90 n rows columns,
    fst (_read_image (demo_env true [page_2x1]) (pdfopt "rotate=90,encapsulate=false")
           (fresh_world [x25; x50])) = Ok (InfoTrue, Some si90) /\
    [1; 2; 1; 3]%nat = [n; rows; columns; 3%nat] /\
    shape si90 = [n; columns; rows; 3%nat].
Proof.
  apply (C9_rotation_swaps_row_and_column_extents
           (demo_env true [page_2x1]) (pdfopt "rotate=0,encapsulate=false")
           (pdfopt "rotate=90,encapsulate=false") (fresh_world [x25; x50])
           150 150).
  - reflexivity.
  - vm_compute. reflexivity.
  - vm_compute. reflexivity.
Defined.

(** * Further properties of the code *)

(** ** The option resolver *)

Lemma split_go_app sep cur a b :
  split_go sep cur (a ++ String sep b)
  = (split_go sep cur a ++ split_go sep EmptyString b)%list.
Proof.
  revert cur. induction a as [|c a IH]; intros cur; simpl.
  - rewrite Ascii.eqb_refl. reflexivity.
  - destruct (Ascii.eqb c sep); rewrite IH; reflexivity.
Qed.

(** Splitting distributes over a separator. *)
Lemma split_app sep a b :
  split sep (a ++ String sep b) = (split sep a ++ split sep b)%list.
Proof. apply split_go_app. Qed.

Lemma for_each_app {A} (body : A -> M unit) l1 l2 w :
  for_each (l1 ++ l2)%list body w = (for_each l1 body ;; for_each l2 body) w.
Proof.
  revert w. induction l1 as [|x l1 IH]; intros w; simpl.
  - reflexivity.
  - unfold bind in *. destruct (body x w) as [[u|e] w1]; [|reflexivity].
    apply IH.
Qed.

Lemma string_app_nonempty a b : (a ++ String "," b)%string <> "".
Proof. destruct a; discriminate. Qed.

Lemma entries_app a b :
  a <> "" -> b <> "" ->
  entries (a ++ String "," b) = (entries a ++ entries b)%list.
Proof.
  intros Ha Hb. unfold entries.
  destruct (String.eqb_spec (a ++ String "," b) "") as [E|_];
    [now apply string_app_nonempty in E|].
  destruct (String.eqb_spec a "") as [|_]; [contradiction|].
  destruct (String.eqb_spec b "") as [|_]; [contradiction|].
  apply split_app.
Qed.

(** X1. Option strings compose: resolving ["a,b"] is resolving [a] and
    then, when that raised nothing, [b], for non-empty [a] and [b]. *)
Theorem parse_pdfopt_of_joined_strings a b w :
  a <> "" -> b <> "" ->
  parse_pdfopt (pdfopt (a ++ String "," b)) w
  = (parse_pdfopt (pdfopt a) ;; parse_pdfopt (pdfopt b)) w.
Proof.
  intros Ha Hb. rewrite parse_pdfopt_string, entries_app by assumption.
  rewrite for_each_app. unfold bind.
  rewrite <- (parse_pdfopt_string a).
  destruct (parse_pdfopt (pdfopt a) w) as [[u|e] w1]; [|reflexivity].
  now rewrite parse_pdfopt_string.
Qed.

Lemma parse_pdfopt_of_joined_strings_witness :
  parse_pdfopt (pdfopt ("dpi=300" ++ String "," "rotate=90")) (fresh_world [])
  = (parse_pdfopt (pdfopt "dpi=300") ;; parse_pdfopt (pdfopt "rotate=90"))
      (fresh_world []).
Proof.
  apply (parse_pdfopt_of_joined_strings "dpi=300" "rotate=90" (fresh_world []));
    discriminate.
Defined.

Lemma forallb_rejected exprs :
  In "" exprs -> forallb accepted_entry exprs = false.
Proof.
  induction exprs as [|e exprs IH]; intros H; simpl.
  - destruct H.
  - destruct H as [->|H]; [reflexivity|].
    rewrite IH by exact H. apply andb_false_r.
Qed.

Lemma split_last_empty sep a : In "" (split sep (a ++ String sep "")).
Proof. rewrite split_app. apply in_or_app. right. now left. Qed.

Lemma split_first_empty sep a : In "" (split sep (String sep a)).
Proof. unfold split. simpl. rewrite Ascii.eqb_refl. now left. Qed.

(** X2. An empty entry is an error: every option string that ends or
    begins with a comma raises [ValueError]. *)
Theorem parse_pdfopt_rejects_stray_comma a w :
  raised (fst (parse_pdfopt (pdfopt (a ++ ",")) w)) = Some ValueError
  /\ raised (fst (parse_pdfopt (pdfopt (String "," a)) w)) = Some ValueError.
Proof.
  split.
  - pose proof (C5_spec_helper := for_each_set_option_spec (entries (a ++ ",")) w).
    rewrite parse_pdfopt_string.
    unfold entries in *.
    destruct (String.eqb_spec (a ++ ",") "") as [E|_];
      [now apply string_app_nonempty in E|].
    rewrite (forallb_rejected _ (split_last_empty "," a)) in C5_spec_helper.
    exact C5_spec_helper.
  - pose proof (H := for_each_set_option_spec (split "," (String "," a)) w).
    rewrite parse_pdfopt_string.
    change (entries (String "," a)) with (split "," (String "," a)).
    rewrite (forallb_rejected _ (split_first_empty "," a)) in H.
    exact H.
Qed.

Lemma apply_entry_lookup m e k :
  apply_entry m e !! k
  = match entry_value_for k e with
    | Some v => Some (PStr v)
    | None => m !! k
    end.
Proof.
  unfold apply_entry, entry_value_for.
  destruct (split "=" e) as [|a [|v [|c l]]]; try reflexivity.
  destruct (String.eqb_spec a k) as [->|Hne].
  - apply lookup_insert_eq.
  - now apply lookup_insert_ne.
Qed.

Lemma fold_apply_entry_lookup exprs : forall m k,
  fold_left apply_entry exprs m !! k
  = match last_value k exprs with
    | Some v => Some (PStr v)
    | None => m !! k
    end.
Proof.
  induction exprs as [|e exprs IH]; intros m k; simpl.
  - reflexivity.
  - rewrite IH. destruct (last_value k exprs); [reflexivity|].
    apply apply_entry_lookup.
Qed.

(** X3. When every entry is accepted, an attribute holds afterwards the
    text of the last entry that names it, and is left as it was when no
    entry names it: a key overrides only itself, the last one wins. *)
Theorem parse_pdfopt_last_entry_wins s w k :
  forallb accepted_entry (entries s) = true ->
  self (snd (parse_pdfopt (pdfopt s) w)) !! k
  = match last_value k (entries s) with
    | Some v => Some (PStr v)
    | None => self w !! k
    end.
Proof.
  intros Hacc. rewrite parse_pdfopt_string.
  pose proof (for_each_set_option_spec (entries s) w) as H.
  rewrite Hacc in H. rewrite H. simpl.
  apply fold_apply_entry_lookup.
Qed.

Lemma parse_pdfopt_last_entry_wins_witness :
  self (snd (parse_pdfopt (pdfopt "dpi=100,rotate=90,dpi=200") (fresh_world [])))
    !! "dpi"
  = Some (PStr "200").
Proof.
  apply (parse_pdfopt_last_entry_wins "dpi=100,rotate=90,dpi=200"
           (fresh_world []) "dpi").
  vm_compute. reflexivity.
Defined.

Lemma set_option_rejected_world expr w :
  accepted_entry expr = false -> snd (set_option expr w) = w.
Proof.
  unfold accepted_entry, set_option.
  destruct (split "=" expr) as [|a [|b [|c l]]]; try reflexivity.
  intros H. apply bool_decide_eq_false in H.
  destruct (decide (a ∈ legal_attributes)); [contradiction | reflexivity].
Qed.

(** X4. Nothing is rolled back: when an entry is rejected, the entries
    before it stay applied to the instance, and those after it are never
    looked at. *)
Theorem parse_pdfopt_keeps_entries_before_error s w before bad after :
  entries s = (before ++ bad :: after)%list ->
  forallb accepted_entry before = true ->
  accepted_entry bad = false ->
  raised (fst (parse_pdfopt (pdfopt s) w)) = Some ValueError
  /\ snd (parse_pdfopt (pdfopt s) w)
     = World (fold_left apply_entry before (self w)) (hdr w) (f w) (trace w).
Proof.
  intros He Hb Hbad. rewrite parse_pdfopt_string, He, for_each_app.
  pose proof (for_each_set_option_spec before w) as H. rewrite Hb in H.
  unfold bind. rewrite H. simpl. unfold bind.
  pose proof (set_option_rejected bad
                (World (fold_left apply_entry before (self w))
                   (hdr w) (f w) (trace w)) Hbad) as Hr.
  pose proof (set_option_rejected_world bad
                (World (fold_left apply_entry before (self w))
                   (hdr w) (f w) (trace w)) Hbad) as Hw.
  destruct (set_option bad _) as [[u|e] w1]; [discriminate|].
  simpl in *. auto.
Qed.

Lemma parse_pdfopt_keeps_entries_before_error_witness :
  raised (fst (parse_pdfopt (pdfopt "dpi=300,zoom=2,rotate=90") (fresh_world [])))
  = Some ValueError
  /\ snd (parse_pdfopt (pdfopt "dpi=300,zoom=2,rotate=90") (fresh_world []))
     = World (fold_left apply_entry ["dpi=300"] ∅) empty_header (open_bytes []) [].
Proof.
  apply (parse_pdfopt_keeps_entries_before_error
           "dpi=300,zoom=2,rotate=90" (fresh_world [])
           ["dpi=300"] "zoom=2" ["rotate=90"]).
  - reflexivity.
  - vm_compute. reflexivity.
  - vm_compute. reflexivity.
Defined.

(** The resolver, run from the instance left by the parsing loop. *)
Lemma resolve_options_run opts w w0 vd d vr r e :
  parse_pdfopt opts (seeded w) = (Ok tt, w0) ->
  self w0 !! "dpi" = Some vd -> int vd = Ok d ->
  self w0 !! "rotate" = Some vr -> int vr = Ok r ->
  self w0 !! "encapsulate" = Some (PStr e) ->
  resolve_options opts w
  = ((if (r =? 0) || (r =? 90) then Ok tt
      else Raise (Exn ValueError
                    ("psopt rotate value " ++ str_of_int r ++ " is not implemented"))),
     World (<["encapsulate" := PBool (coerce_encapsulate e)]>
              (<["rotate" := PInt r]> (<["dpi" := PInt d]> (self w0))))
       (hdr w0) (f w0) (trace w0)).
Proof.
  intros Hparse Hd Hid Hr Hir He.
  unfold resolve_options.
  unfold bind at 1. unfold bind at 1. unfold bind at 1. unfold bind at 1.
  rewrite !setattr_eq. simpl. fold (seeded w).
  unfold bind at 1. unfold bind at 1. rewrite Hparse.
  unfold bind, getattr, setattr, lift, ret, raise. simpl.
  rewrite Hd, Hid. simpl.
  rewrite lookup_insert_ne by done. rewrite Hr, Hir. simpl.
  do 2 (rewrite lookup_insert_ne by done). rewrite He. simpl.
  assert (Hin : in_0_90 (PInt r) = (r =? 0) || (r =? 90)).
  { simpl. destruct (Z.eqb_spec r 0) as [->|H0]; [reflexivity|].
    destruct (Z.eqb_spec r 90) as [->|H90]; [reflexivity|].
    apply bool_decide_eq_false.
    rewrite elem_of_union, !elem_of_singleton. intros [?|?]; congruence. }
  unfold coerce_encapsulate.
  destruct (String.eqb (lower e) "true"); simpl.
  - rewrite lookup_insert_ne by done. rewrite lookup_insert_eq.
    rewrite Hin. now destruct ((r =? 0) || (r =? 90)).
  - do 2 (rewrite lookup_insert_ne by done). rewrite He. simpl.
    rewrite lookup_insert_ne by done. rewrite lookup_insert_eq.
    rewrite Hin. now destruct ((r =? 0) || (r =? 90)).
Qed.

(** X5. The settings of a read, from what the parsing loop leaves: [dpi]
    and [rotate] are what [int] makes of their attributes, with no test
    of [dpi] at all; [encapsulate] is true exactly for the texts that
    lower to "true" or "on", and false for any other text, without error;
    the read goes on when [rotate] is 0 or 90, and only then. *)
Theorem settings_after_parsing opts w w0 vd d vr r e :
  parse_pdfopt opts (seeded w) = (Ok tt, w0) ->
  self w0 !! "dpi" = Some vd -> int vd = Ok d ->
  self w0 !! "rotate" = Some vr -> int vr = Ok r ->
  self w0 !! "encapsulate" = Some (PStr e) ->
  settings_after opts w
  = (if (r =? 0) || (r =? 90) then Some (d, r, coerce_encapsulate e) else None).
Proof.
  intros Hparse Hd Hid Hr Hir He. unfold settings_after.
  rewrite (resolve_options_run _ _ _ _ _ _ _ _ Hparse Hd Hid Hr Hir He).
  destruct ((r =? 0) || (r =? 90)); [|reflexivity].
  simpl.
  repeat (rewrite ?lookup_insert_eq; rewrite ?lookup_insert_ne by done).
  reflexivity.
Qed.

Lemma settings_after_parsing_witness :
  settings_after (pdfopt "dpi=-7,rotate= 9_0 ,encapsulate=Yes") (fresh_world [])
  = Some (-7, 90, false).
Proof.
  apply (settings_after_parsing
           (pdfopt "dpi=-7,rotate= 9_0 ,encapsulate=Yes") (fresh_world [])
           (snd (parse_pdfopt (pdfopt "dpi=-7,rotate= 9_0 ,encapsulate=Yes")
                   (seeded (fresh_world []))))
           (PStr "-7") (-7) (PStr " 9_0 ") 90 "Yes").
  - vm_compute. reflexivity.
  - vm_compute. reflexivity.
  - reflexivity.
  - vm_compute. reflexivity.
  - reflexivity.
  - vm_compute. reflexivity.
Defined.

(** ** The read, branch by branch *)

(** The whole effect of the encapsulation branch. *)
Lemma encapsulate_branch_effect env w :
  exists ds h',
    encapsulate_branch env w
    = (Ok (InfoHdr, None),
       World (self w) h' (at_end (f w))
         (trace w ++ [EvNamedTemporaryFile ".dcm"; EvDatetimeNow])) /\
    DicomHeaderDict h' = Some [[(PNone, PNone, ds)]] /\
    tags h' = Some (TagsList [TagArr [0]]) /\
    EncapsulatedDocument ds
    = (if Nat.even (length (unread (f w))) then unread (f w)
       else unread (f w) ++ [x00])%list /\
    (spacing h', photometricInterpretation h', color h', imagePositions h',
     orientation h', axes h')
    = (spacing (hdr w), photometricInterpretation (hdr w), color (hdr w),
       imagePositions (hdr w), orientation (hdr w), axes (hdr w)).
Proof.
  unfold encapsulate_branch, generate_dicom_from_pdf, bind, emit, f_read,
    modify_hdr, ret, at_end, unread.
  lazy beta iota zeta delta [self hdr f trace].
  eexists. eexists. split.
  - rewrite <- app_assoc. reflexivity.
  - split; [reflexivity|]. split; [reflexivity|]. split; [|reflexivity].
    lazy beta iota zeta delta [EncapsulatedDocument].
    rewrite even_mod2. now destruct (Nat.even _).
Qed.

(** The whole effect of the rasterization branch: the file is read to its
    end, the renderer is called once, and the header is written only when
    an array is returned. *)
Lemma rasterize_branch_effect env w r :
  self w !! "rotate" = Some (PInt r) ->
  rasterize_branch env w
  = (match rasterized env (f w) r with
     | Ok si => Ok (InfoTrue, Some si)
     | Raise e => Raise e
     end,
     World (self w)
       (if is_ok (rasterized env (f w) r)
        then set_color true
               (set_photometricInterpretation "RGB"
                  (set_spacing (1, 1, 1)%Q (hdr w)))
        else hdr w)
       (at_end (f w))
       (trace w ++ [EvConvertFromBytes (unread (f w))])).
Proof.
  intros Hr. unfold rasterized, rasterize_branch, render, at_end, unread.
  unfold bind, f_read, emit, lift, modify_hdr, getattr, ret. simpl.
  destruct (convert_from_bytes env (drop (f_pos (f w)) (f_bytes (f w))))
    as [image_list|e].
  - destruct (stack_pages image_list) as [si|e] eqn:Es; [|reflexivity].
    simpl. rewrite Hr. simpl.
    destruct (stack_pages_shape _ _ Es) as (img & rest & _ & Hsh & _).
    destruct (r =? 90); simpl; [|reflexivity].
    destruct (rot90_4d si _ _ _ _ Hsh) as (si' & -> & _). reflexivity.
  - destruct (cls e); reflexivity.
Qed.

(** The three ways a read can go. *)
Lemma read_image_cases env opts w :
  (POPPLER_INSTALLED env = false /\
   _read_image env opts w = (Raise (Exn OSError "Poppler is not installed"), w))
  \/ (exists e w1,
        resolve_options opts w = (Raise e, w1) /\ same_frame w w1 /\
        _read_image env opts w = (Raise e, w1))
  \/ (exists w1 d r b,
        resolve_options opts w = (Ok tt, w1) /\ same_frame w w1 /\
        self w1 !! "dpi" = Some (PInt d) /\
        self w1 !! "rotate" = Some (PInt r) /\ (r = 0 \/ r = 90) /\
        self w1 !! "encapsulate" = Some (PBool b) /\
        _read_image env opts w
        = (if b then encapsulate_branch env w1 else rasterize_branch env w1)).
Proof.
  unfold _read_image. destruct (POPPLER_INSTALLED env); [|left; auto].
  right. simpl.
  pose proof (resolve_options_frame opts w) as Hf.
  destruct (resolve_options opts w) as [[[]|e] w1] eqn:E; simpl in Hf.
  - right.
    destruct (resolve_options_Ok _ _ _ E) as (d & r & b & Hd & Hr & H090 & Hb).
    exists w1, d, r, b. repeat split; try apply Hf; auto.
    rewrite (bind_Ok _ _ _ _ _ E).
    unfold bind, getattr. rewrite Hb. simpl. now destruct b.
  - left. exists e, w1. repeat split; try apply Hf.
    now rewrite (bind_Raise _ _ _ _ _ E).
Qed.

Lemma unread_at_end fl : unread (at_end fl) = [].
Proof. unfold unread, at_end. simpl. apply drop_ge. lia. Qed.

(** X6. Whatever the options, a read that returns has left typed settings
    on the instance ([dpi] and [rotate] integers, [rotate] 0 or 90,
    [encapsulate] a [bool]), and what it returns follows [encapsulate]:
    the header and no array when it is true, [True] and an 8-bit array of
    four axes, the last of length 3, when it is false. *)
Theorem read_image_result_follows_encapsulate env opts w info arr w' :
  _read_image env opts w = (Ok (info, arr), w') ->
  exists d r b,
    self w' !! "dpi" = Some (PInt d) /\
    self w' !! "rotate" = Some (PInt r) /\ (r = 0 \/ r = 90) /\
    self w' !! "encapsulate" = Some (PBool b) /\
    (if b then info = InfoHdr /\ arr = None
     else info = InfoTrue /\
          exists si n rows columns,
            arr = Some si /\ dt si = uint8 /\
            shape si = [n; rows; columns; 3%nat]).
Proof.
  intros H.
  destruct (read_image_cases env opts w)
    as [[_ K] | [(e & w1 & _ & _ & K) | (w1 & d & r & b & _ & _ & Hd & Hr & H090 & Hb & K)]];
    rewrite K in H; try discriminate.
  exists d, r, b. destruct b.
  - destruct (encapsulate_branch_effect env w1) as (ds & h' & Hrun & _).
    rewrite Hrun in H. inversion H; subst. simpl. repeat split; auto.
  - rewrite (rasterize_branch_effect env w1 r Hr) in H.
    destruct (rasterized env (f w1) r) as [si|e] eqn:E; [|discriminate].
    inversion H; subst. simpl.
    destruct (rasterized_shape _ _ _ _ E) as (il & img & rest & _ & _ & Hdt & Hsh).
    repeat split; auto.
    exists si. destruct (r =? 90); eauto 10.
Qed.

Lemma read_image_result_follows_encapsulate_witness :
  exists d r b,
    self (snd (_read_image (demo_env true [page_2x1])
                 (pdfopt "rotate=90,encapsulate=no") (fresh_world [x25; x50])))
      !! "dpi" = Some (PInt d) /\
    self (snd (_read_image (demo_env true [page_2x1])
                 (pdfopt "rotate=90,encapsulate=no") (fresh_world [x25; x50])))
      !! "rotate" = Some (PInt r) /\ (r = 0 \/ r = 90) /\
    self (snd (_read_image (demo_env true [page_2x1])
                 (pdfopt "rotate=90,encapsulate=no") (fresh_world [x25; x50])))
      !! "encapsulate" = Some (PBool b) /\
    (if b then InfoTrue = InfoHdr /\
               Some (NDArray [1; 1; 2; 3]%nat uint8
                       [x0a; x0b; x0c; x0d; x0e; x0f]) = None
     else InfoTrue = InfoTrue /\
          exists si n rows columns,
            Some (NDArray [1; 1; 2; 3]%nat uint8
                    [x0a; x0b; x0c; x0d; x0e; x0f]) = Some si /\
            dt si = uint8 /\
            shape si = [n; rows; columns; 3%nat]).
Proof.
  apply (read_image_result_follows_encapsulate
           (demo_env true [page_2x1]) (pdfopt "rotate=90,encapsulate=no")
           (fresh_world [x25; x50])).
  vm_compute. reflexivity.
Defined.

(** X7. An instance that has completed a read is left with a [bool] in
    [encapsulate]: any later read on it whose options do not name
    [encapsulate] fails, in whatever environment. *)
Theorem read_image_again_without_encapsulate_fails
    env opts w x w' env2 opts2 :
  _read_image env opts w = (Ok x, w') ->
  POPPLER_INSTALLED env2 = true ->
  omits_encapsulate opts2 = true ->
  is_ok (fst (_read_image env2 opts2 w')) = false.
Proof.
  intros H Hp Ho. destruct x as [info arr].
  assert (Hb : exists b, self w' !! "encapsulate" = Some (PBool b)).
  { destruct (read_image_cases env opts w)
      as [[_ K] | [(e & w1 & _ & _ & K) | (w1 & d & r & b & _ & _ & _ & Hr & _ & Hb & K)]];
      rewrite K in H; try discriminate.
    exists b. destruct b.
    - destruct (encapsulate_branch_effect env w1) as (ds & h' & Hrun & _).
      rewrite Hrun in H. inversion H; subst. exact Hb.
    - rewrite (rasterize_branch_effect env w1 r Hr) in H.
      inversion H; subst. exact Hb. }
  destruct Hb as [b Hb].
  destruct (_read_image env2 opts2 w') as [[y|e] w''] eqn:E; [|reflexivity].
  exfalso. unfold _read_image in E. rewrite Hp in E. simpl in E.
  inv_bind E as u w1 Hres. destruct u.
  apply resolve_options_needs_encapsulate in Hres.
  unfold has_str_encapsulate in Hres.
  rewrite parse_pdfopt_keeps_encapsulate in Hres by exact Ho.
  simpl in Hres. do 2 (rewrite lookup_insert_ne in Hres by done).
  rewrite Hb in Hres. discriminate.
Qed.

Lemma read_image_again_without_encapsulate_fails_witness :
  is_ok (fst (_read_image (demo_env true [page_1x2]) (pdfopt "rotate=90")
                (snd (_read_image (demo_env true [page_2x1])
                        (pdfopt "encapsulate=false") (fresh_world [x25; x50])))))
  = false.
Proof.
  apply (read_image_again_without_encapsulate_fails
           (demo_env true [page_2x1]) (pdfopt "encapsulate=false")
           (fresh_world [x25; x50])
           (InfoTrue,
            Some (NDArray [1; 2; 1; 3]%nat uint8 [x0a; x0b; x0c; x0d; x0e; x0f]))
           (snd (_read_image (demo_env true [page_2x1])
                   (pdfopt "encapsulate=false") (fresh_world [x25; x50])))
           (demo_env true [page_1x2]) (pdfopt "rotate=90")).
  - vm_compute. reflexivity.
  - reflexivity.
  - vm_compute. reflexivity.
Defined.

(** The read in terms of the resolved settings. *)
Lemma read_image_by_settings env opts w d r b :
  POPPLER_INSTALLED env = true ->
  settings_after opts w = Some (d, r, b) ->
  exists w1,
    same_frame w w1 /\ self w1 !! "rotate" = Some (PInt r) /\
    snd (resolve_options opts w) = w1 /\
    _read_image env opts w
    = (if b then encapsulate_branch env w1 else rasterize_branch env w1).
Proof.
  intros Hp Hs.
  destruct (settings_after_inv _ _ _ _ _ Hs) as (w1 & Hres & Hf & Hr & Hb & _).
  exists w1. repeat split; try apply Hf; auto.
  - now rewrite Hres.
  - unfold _read_image. rewrite Hp. simpl.
    rewrite (bind_Ok _ _ _ _ _ Hres).
    unfold bind, getattr. rewrite Hb. simpl. now destruct b.
Qed.

(** X8. The resolution has no effect: two reads of the same world whose
    options resolve to the same [rotate] and [encapsulate] return the same
    result and leave the same header, file and calls, whatever their
    [dpi]; the renderer is never given the [dpi]. *)
Theorem read_image_ignores_dpi env opts1 opts2 w d1 d2 r b :
  POPPLER_INSTALLED env = true ->
  settings_after opts1 w = Some (d1, r, b) ->
  settings_after opts2 w = Some (d2, r, b) ->
  fst (_read_image env opts1 w) = fst (_read_image env opts2 w)
  /\ same_frame (snd (_read_image env opts1 w)) (snd (_read_image env opts2 w)).
Proof.
  intros Hp H1 H2.
  destruct (read_image_by_settings env _ _ _ _ _ Hp H1)
    as (w1 & (Hh1 & Hf1 & Ht1) & Hr1 & _ & ->).
  destruct (read_image_by_settings env _ _ _ _ _ Hp H2)
    as (w2 & (Hh2 & Hf2 & Ht2) & Hr2 & _ & ->).
  destruct b.
  - destruct w1 as [s1 h1 fl1 t1], w2 as [s2 h2 fl2 t2]. simpl in *.
    subst h1 fl1 t1 h2 fl2 t2.
    unfold encapsulate_branch, generate_dicom_from_pdf, bind, emit, f_read,
      modify_hdr, ret, same_frame. simpl. auto.
  - rewrite (rasterize_branch_effect env w1 r Hr1).
    rewrite (rasterize_branch_effect env w2 r Hr2).
    unfold same_frame. simpl.
    rewrite Hh1, Hf1, Ht1, Hh2, Hf2, Ht2. auto.
Qed.

Lemma read_image_ignores_dpi_witness :
  fst (_read_image (demo_env true [page_2x1])
         (pdfopt "dpi=72,encapsulate=false") (fresh_world [x25; x50]))
  = fst (_read_image (demo_env true [page_2x1])
           (pdfopt "dpi=600,encapsulate=false") (fresh_world [x25; x50]))
  /\ same_frame
       (snd (_read_image (demo_env true [page_2x1])
               (pdfopt "dpi=72,encapsulate=false") (fresh_world [x25; x50])))
       (snd (_read_image (demo_env true [page_2x1])
               (pdfopt "dpi=600,encapsulate=false") (fresh_world [x25; x50]))).
Proof.
  apply (read_image_ignores_dpi
           (demo_env true [page_2x1]) (pdfopt "dpi=72,encapsulate=false")
           (pdfopt "dpi=600,encapsulate=false") (fresh_world [x25; x50])
           72 600 0 false).
  - reflexivity.
  - vm_compute. reflexivity.
  - vm_compute. reflexivity.
Defined.

(** X9. A read that raises, for whatever reason, has not written the
    header: there is no half-filled header after a failure. *)
Theorem read_image_failure_leaves_header env opts w e w' :
  _read_image env opts w = (Raise e, w') -> hdr w' = hdr w.
Proof.
  intros H.
  destruct (read_image_cases env opts w)
    as [[_ K] | [(e1 & w1 & _ & Hf & K) | (w1 & d & r & b & _ & Hf & _ & Hr & _ & _ & K)]];
    rewrite K in H.
  - now inversion H.
  - inversion H; subst. apply Hf.
  - destruct b.
    + destruct (encapsulate_branch_effect env w1) as (ds & h' & Hrun & _).
      rewrite Hrun in H. discriminate.
    + rewrite (rasterize_branch_effect env w1 r Hr) in H.
      destruct (rasterized env (f w1) r) as [si|e1]; [discriminate|].
      inversion H; subst. simpl. apply Hf.
Qed.

Lemma read_image_failure_leaves_header_witness :
  hdr (snd (_read_image (demo_env true [page_2x1; page_1x2])
              (pdfopt "encapsulate=false") (fresh_world [x25; x50])))
  = hdr (fresh_world [x25; x50]).
Proof.
  apply (read_image_failure_leaves_header
           (demo_env true [page_2x1; page_1x2]) (pdfopt "encapsulate=false")
           (fresh_world [x25; x50])
           (Exn ValueError "could not broadcast input array")).
  vm_compute. reflexivity.
Defined.

(** X10. In rasterization mode the read consumes the file to its end and
    calls the renderer exactly once, on the bytes that were unread, and
    calls nothing else, whether or not an array comes back; the header
    receives the unit spacing, "RGB" and the colour flag exactly when an
    array comes back. *)
Theorem read_image_rasterization_effects env opts w d r :
  POPPLER_INSTALLED env = true ->
  settings_after opts w = Some (d, r, false) ->
  let w' := snd (_read_image env opts w) in
  f w' = at_end (f w) /\
  trace w' = (trace w ++ [EvConvertFromBytes (unread (f w))])%list /\
  self w' = self (snd (resolve_options opts w)) /\
  hdr w' = (if is_ok (fst (_read_image env opts w))
            then set_color true
                   (set_photometricInterpretation "RGB"
                      (set_spacing (1, 1, 1)%Q (hdr w)))
            else hdr w).
Proof.
  intros Hp Hs.
  destruct (read_image_by_settings env _ _ _ _ _ Hp Hs)
    as (w1 & (Hh & Hf & Ht) & Hr & Hsnd & ->).
  rewrite (rasterize_branch_effect env w1 r Hr). simpl.
  rewrite Hh, Hf, Ht, Hsnd. repeat split.
  destruct (rasterized env (f w) r); reflexivity.
Qed.

Lemma read_image_rasterization_effects_witness :
  let w' := snd (_read_image (demo_env true [page_2x1])
                   (pdfopt "encapsulate=false") (fresh_world [x25; x50])) in
  f w' = at_end (f (fresh_world [x25; x50])) /\
  trace w' = [EvConvertFromBytes [x25; x50]] /\
  self w' = self (snd (resolve_options (pdfopt "encapsulate=false")
                         (fresh_world [x25; x50]))) /\
  hdr w' = (if is_ok (fst (_read_image (demo_env true [page_2x1])
                             (pdfopt "encapsulate=false") (fresh_world [x25; x50])))
            then set_color true
                   (set_photometricInterpretation "RGB"
                      (set_spacing (1, 1, 1)%Q empty_header))
            else empty_header).
Proof.
  apply (read_image_rasterization_effects
           (demo_env true [page_2x1]) (pdfopt "encapsulate=false")
           (fresh_world [x25; x50]) 150 0).
  - reflexivity.
  - vm_compute. reflexivity.
Defined.

(** X11. A document that renders to no page at all is an error: the read
    raises [ValueError('No image data read')]. *)
Theorem read_image_without_pages env opts w d r :
  POPPLER_INSTALLED env = true ->
  settings_after opts w = Some (d, r, false) ->
  convert_from_bytes env (unread (f w)) = Ok [] ->
  fst (_read_image env opts w) = Raise (Exn ValueError "No image data read").
Proof.
  intros Hp Hs Hc.
  destruct (read_image_by_settings env _ _ _ _ _ Hp Hs)
    as (w1 & (_ & Hf & _) & Hr & _ & ->).
  rewrite (rasterize_branch_effect env w1 r Hr). simpl.
  unfold rasterized. rewrite Hf. unfold unread in Hc. rewrite Hc. reflexivity.
Qed.

Lemma read_image_without_pages_witness :
  fst (_read_image (demo_env true []) (pdfopt "encapsulate=false")
         (fresh_world [x25; x50]))
  = Raise (Exn ValueError "No image data read").
Proof.
  apply (read_image_without_pages
           (demo_env true []) (pdfopt "encapsulate=false")
           (fresh_world [x25; x50]) 150 0).
  - reflexivity.
  - vm_compute. reflexivity.
  - reflexivity.
Defined.

(** X12. An exception of the renderer ends the read: [NotImageError] is
    raised again as [NotImageError] with the plugin's own message, naming
    the file; any other exception passes through as it is. *)
Theorem read_image_renderer_exception env opts w d r e :
  POPPLER_INSTALLED env = true ->
  settings_after opts w = Some (d, r, false) ->
  convert_from_bytes env (unread (f w)) = Raise e ->
  fst (_read_image env opts w)
  = Raise (match cls e with
           | NotImageError =>
               Exn NotImageError
                 (f_repr (f w) ++ " does not look like a PostScript file")
           | _ => e
           end).
Proof.
  intros Hp Hs Hc.
  destruct (read_image_by_settings env _ _ _ _ _ Hp Hs)
    as (w1 & (_ & Hf & _) & Hr & _ & ->).
  rewrite (rasterize_branch_effect env w1 r Hr). simpl.
  unfold rasterized. rewrite Hf. unfold unread in Hc. rewrite Hc.
  destruct (cls e); reflexivity.
Qed.

Lemma read_image_renderer_exception_witness :
  fst (_read_image
         {| POPPLER_INSTALLED := true;
            convert_from_bytes := fun _ =>
              Raise (Exn RendererError "Unable to get page count.");
            NamedTemporaryFile_name := fun suffix => suffix;
            now_strftime := fun fmt => fmt |}
         (pdfopt "encapsulate=false") (fresh_world [x25; x50]))
  = Raise (Exn RendererError "Unable to get page count.").
Proof.
  apply (read_image_renderer_exception
           {| POPPLER_INSTALLED := true;
              convert_from_bytes := fun _ =>
                Raise (Exn RendererError "Unable to get page count.");
              NamedTemporaryFile_name := fun suffix => suffix;
              now_strftime := fun fmt => fmt |}
           (pdfopt "encapsulate=false") (fresh_world [x25; x50]) 150 0
           (Exn RendererError "Unable to get page count.")).
  - reflexivity.
  - vm_compute. reflexivity.
  - reflexivity.
Defined.

(** X13. A read that returns has read the file to its end, so that a
    second, encapsulating read of the same handle embeds an empty
    document. *)
Theorem read_image_twice_embeds_nothing env opts w x w' env2 opts2 d r :
  _read_image env opts w = (Ok x, w') ->
  POPPLER_INSTALLED env2 = true ->
  settings_after opts2 w' = Some (d, r, true) ->
  unread (f w') = []
  /\ exists ds w'',
       _read_image env2 opts2 w' = (Ok (InfoHdr, None), w'') /\
       DicomHeaderDict (hdr w'') = Some [[(PNone, PNone, ds)]] /\
       EncapsulatedDocument ds = [].
Proof.
  intros H Hp Hs.
  assert (Hend : unread (f w') = []).
  { destruct (read_image_cases env opts w)
      as [[_ K] | [(e & w1 & _ & _ & K) | (w1 & d1 & r1 & b & _ & _ & _ & Hr & _ & _ & K)]];
      rewrite K in H; try discriminate.
    destruct b.
    - destruct (encapsulate_branch_effect env w1) as (ds & h' & Hrun & _).
      rewrite Hrun in H. inversion H; subst. apply unread_at_end.
    - rewrite (rasterize_branch_effect env w1 r1 Hr) in H.
      inversion H; subst. apply unread_at_end. }
  split; [exact Hend|].
  destruct (read_image_by_settings env2 _ _ _ _ _ Hp Hs)
    as (w1 & (_ & Hf & _) & _ & _ & ->).
  destruct (encapsulate_branch_effect env2 w1) as (ds & h' & Hrun & Hd & _ & Hdoc & _).
  rewrite Hrun. exists ds. eexists. split; [reflexivity|]. split; [exact Hd|].
  rewrite Hf, Hend in Hdoc. exact Hdoc.
Qed.

Lemma read_image_twice_embeds_nothing_witness :
  unread (f (snd (_read_image (demo_env true [page_2x1])
                    (pdfopt "encapsulate=true") (fresh_world [x25; x50; x44]))))
  = []
  /\ exists ds w'',
       _read_image (demo_env true [page_2x1]) (pdfopt "encapsulate=true")
         (snd (_read_image (demo_env true [page_2x1])
                 (pdfopt "encapsulate=true") (fresh_world [x25; x50; x44])))
       = (Ok (InfoHdr, None), w'') /\
       DicomHeaderDict (hdr w'') = Some [[(PNone, PNone, ds)]] /\
       EncapsulatedDocument ds = [].
Proof.
  apply (read_image_twice_embeds_nothing
           (demo_env true [page_2x1]) (pdfopt "encapsulate=true")
           (fresh_world [x25; x50; x44]) (InfoHdr, None)
           (snd (_read_image (demo_env true [page_2x1])
                   (pdfopt "encapsulate=true") (fresh_world [x25; x50; x44])))
           (demo_env true [page_2x1]) (pdfopt "encapsulate=true") 150 0).
  - vm_compute. reflexivity.
  - reflexivity.
  - vm_compute. reflexivity.
Defined.

(** ** Stacking pages of different sizes *)

Lemma sequence_opt_map_None {A B} (g : A -> option B) (l : list A) :
  l <> [] -> (forall x, g x = None) -> sequence_opt (map g l) = None.
Proof.
  destruct l as [|x l]; [contradiction|]. intros _ H. simpl. now rewrite H.
Qed.

Lemma chunks_nonempty n k d : (0 < k)%nat -> chunks n k d <> [].
Proof. destruct k; [lia | discriminate]. Qed.

(** One row of a page against one row of the slot. *)
Lemma broadcast_row u wp w d :
  if ((wp =? w)%nat || (wp =? 1)%nat)
  then exists blk, broadcast u [wp; 3%nat] [w; 3%nat] d = Some blk
  else broadcast u [wp; 3%nat] [w; 3%nat] d = None.
Proof.
  destruct (Nat.eqb_spec wp w) as [->|Hne]; simpl orb.
  - apply broadcast_same_shape.
  - destruct (Nat.eqb_spec wp 1) as [->|Hne1].
    + cbn [broadcast]. apply Nat.eqb_neq in Hne. rewrite Hne.
      rewrite Nat.eqb_refl.
      destruct (broadcast_same_shape u [3%nat] d) as [blk Hb].
      cbn [broadcast] in Hb. rewrite Hb. eauto.
    + cbn [broadcast]. apply Nat.eqb_neq in Hne, Hne1.
      now rewrite Hne, Hne1.
Qed.

(** A page against the slot: numpy accepts it exactly when each of its
    extents is the slot's or 1. *)
Lemma broadcast_page u h w p :
  (0 < h)%nat ->
  if broadcastable h w p
  then exists blk, broadcast u (shape (asarray p)) [h; w; 3%nat] (pixels p) = Some blk
  else broadcast u (shape (asarray p)) [h; w; 3%nat] (pixels p) = None.
Proof.
  intros Hh. unfold broadcastable, asarray. cbn [shape].
  set (hp := height p). set (wp := width p). set (d := pixels p).
  assert (Hrow := fun c => broadcast_row u wp w c).
  destruct (Nat.eqb_spec hp h) as [->|Hne]; simpl orb; simpl andb.
  - cbn [broadcast]. rewrite Nat.eqb_refl.
    destruct ((wp =? w)%nat || (wp =? 1)%nat).
    + destruct (sequence_opt_map_Some (broadcast u [wp; 3%nat] [w; 3%nat])
                  (chunks (size_of [wp; 3%nat] * u) h d)) as [ys Hys];
        [intros x _; apply Hrow|].
      cbn [broadcast] in Hys. rewrite Hys. eauto.
    + pose proof (sequence_opt_map_None (broadcast u [wp; 3%nat] [w; 3%nat])
                    (chunks (size_of [wp; 3%nat] * u) h d)
                    (chunks_nonempty _ _ _ Hh) Hrow) as Hn.
      cbn [broadcast] in Hn. now rewrite Hn.
  - apply Nat.eqb_neq in Hne. cbn [broadcast]. rewrite Hne.
    destruct (Nat.eqb_spec hp 1) as [->|Hne1]; simpl andb.
    + specialize (Hrow d).
      destruct ((wp =? w)%nat || (wp =? 1)%nat).
      * destruct Hrow as [blk Hb]. cbn [broadcast] in Hb. rewrite Hb. eauto.
      * cbn [broadcast] in Hrow. now rewrite Hrow.
    + reflexivity.
Qed.

Lemma fill_outcome n h w pages : forall si i,
  (0 < h)%nat -> shape si = [n; h; w; 3%nat] ->
  (i + length pages <= n)%nat ->
  match fill si i pages with
  | Ok si' =>
      forallb (broadcastable h w) pages = true /\ shape si' = [n; h; w; 3%nat]
  | Raise e =>
      forallb (broadcastable h w) pages = false /\
      e = Exn ValueError "could not broadcast input array"
  end.
Proof.
  induction pages as [|p rest IH]; intros si i Hh Hs Hi;
    cbn [fill forallb length] in *.
  - auto.
  - pose proof (broadcast_page (itemsize (dt si)) h w p Hh) as Hb.
    change (pixels p) with (data (asarray p)) in Hb.
    unfold setitem. rewrite Hs.
    assert (Hlt : (i <? n)%nat = true) by (apply Nat.ltb_lt; lia).
    rewrite Hlt.
    destruct (broadcastable h w p).
    + destruct Hb as [blk ->]. simpl andb.
      apply IH; [exact Hh | reflexivity | lia].
    + rewrite Hb. auto.
Qed.

(** X14. Stacking succeeds exactly when every page after the first has
    the first page's height or height 1, and the first page's width or
    width 1 (numpy broadcasts such a page over the slot); with any other
    page [si[i] = img] raises [ValueError]. *)
Theorem stack_pages_succeeds_iff_broadcastable p0 rest :
  (0 < height p0)%nat ->
  match stack_pages (p0 :: rest) with
  | Ok si =>
      forallb (broadcastable (height p0) (width p0)) rest = true /\
      shape si = [S (length rest); height p0; width p0; 3%nat]
  | Raise e =>
      forallb (broadcastable (height p0) (width p0)) rest = false /\
      e = Exn ValueError "could not broadcast input array"
  end.
Proof.
  intros Hh. unfold stack_pages.
  pose proof (fill_outcome (length (p0 :: rest)) (height p0) (width p0)
                (p0 :: rest)
                (zeros [length (p0 :: rest); height p0; width p0; 3%nat] uint8)
                0 Hh eq_refl (Nat.le_refl _)) as H.
  assert (Hp0 : broadcastable (height p0) (width p0) p0 = true).
  { unfold broadcastable. now rewrite !Nat.eqb_refl. }
  cbn [forallb] in H. rewrite Hp0 in H. exact H.
Qed.

Lemma stack_pages_succeeds_iff_broadcastable_witness :
  match stack_pages [page_2x1; Page 1 1 [x07; x08; x09]] with
  | Ok si =>
      forallb (broadcastable 2 1) [Page 1 1 [x07; x08; x09]] = true /\
      shape si = [2; 2; 1; 3]%nat
  | Raise e =>
      forallb (broadcastable 2 1) [Page 1 1 [x07; x08; x09]] = false /\
      e = Exn ValueError "could not broadcast input array"
  end.
Proof.
  apply (stack_pages_succeeds_iff_broadcastable
           page_2x1 [Page 1 1 [x07; x08; x09]]).
  simpl. lia.
Defined.

(** A page of one pixel is spread over the whole slot. *)
Example stack_spreads_single_pixel_page :
  stack_pages [page_2x1; Page 1 1 [x07; x08; x09]]
  = Ok (NDArray [2; 2; 1; 3]%nat uint8
          [x0a; x0b; x0c; x0d; x0e; x0f; x07; x08; x09; x07; x08; x09]).
Proof. reflexivity. Qed.

(** ** The axes and the tag table *)

Lemma index_from_end_app (pre suf : list nat) k x :
  (1 <= k <= length suf)%nat ->
  suf !! (length suf - k)%nat = Some x ->
  index_from_end (pre ++ suf) k = Ok x.
Proof.
  intros Hk Hx. unfold index_from_end.
  rewrite length_app.
  destruct (Nat.leb_spec k (length pre + length suf)); [|lia].
  rewrite lookup_app_r by lia.
  replace (length pre + length suf - k - length pre)%nat
    with (length suf - k)%nat by lia.
  now rewrite Hx.
Qed.

Lemma fill_tags_lookup slices : forall (m : gmap nat (list Z)) j,
  fill_tags slices m !! j
  = if bool_decide (j ∈ slices) then Some [0] else m !! j.
Proof.
  induction slices as [|s slices IH]; intros m j; cbn [fill_tags].
  - rewrite bool_decide_eq_false_2; [reflexivity | apply not_elem_of_nil].
  - rewrite IH. destruct (decide (j ∈ slices)) as [Hin|Hnin].
    + rewrite !bool_decide_eq_true_2; [reflexivity | now right | exact Hin].
    + rewrite (bool_decide_eq_false_2 _ Hnin).
      destruct (decide (j = s)) as [->|Hne].
      * rewrite bool_decide_eq_true_2 by now left. apply lookup_insert_eq.
      * rewrite bool_decide_eq_false_2.
        -- now apply lookup_insert_ne.
        -- intros Hin. apply elem_of_cons in Hin. tauto.
Qed.

Lemma fill_tags_seq n j :
  fill_tags (seq 0 n) ∅ !! j = if (j <? n)%nat then Some [0] else None.
Proof.
  rewrite fill_tags_lookup, lookup_empty.
  destruct (Nat.ltb_spec j n) as [Hlt|Hge].
  - rewrite bool_decide_eq_true_2; [reflexivity|].
    apply list_elem_of_In, in_seq. lia.
  - rewrite bool_decide_eq_false_2; [reflexivity|].
    intros Hin. apply list_elem_of_In, in_seq in Hin. lia.
Qed.


Lemma actual_shape_of (c : bool) (dims : list nat) (k : nat) (sh : list nat) :
  sh = (dims ++ (if c then [k] else []))%list ->
  (if c then removelast sh else sh) = dims.
Proof.
  intros ->. destruct c.
  - apply removelast_last.
  - apply app_nil_r.
Qed.

(** X15. For an array with at least three extents beside the colour,
    [_set_tags] derives the axes from the last three of them only (slice,
    row, column, then the colour axis when the header says colour): any
    extent before them gets no axis.  The tag table has one entry [[0]]
    per slice index 0 .. n-1 and no other entry, and spacing, position
    and orientation are reset to their defaults. *)
Theorem set_tags_uses_last_three_extents il si w c pre n h wd k :
  color (hdr w) = Some c ->
  shape si = ((pre ++ [n; h; wd]) ++ (if c then [k] else []))%list ->
  exists w' m,
    _set_tags il si w = (Ok tt, w') /\
    axes (hdr w') = Some (expected_axes c (Some n) h wd) /\
    tags (hdr w') = Some (TagsDict m) /\
    (forall j, m !! j = if (j <? n)%nat then Some [0] else None) /\
    spacing (hdr w') = Some (1, 1, 1)%Q /\
    imagePositions (hdr w') = Some {[ 0%nat := [0; 0; 0] ]} /\
    orientation (hdr w') = Some [0; 1; 0; -1; 0; 0] /\
    self w' = self w /\ f w' = f w /\ trace w' = trace w.
Proof.
  intros Hc Hs.
  pose proof (actual_shape_of c _ k _ Hs) as Hact.
  unfold _set_tags.
  unfold bind, modify_hdr, get_hdr, lift, ret, raise.
  cbn [hdr color set_spacing set_imagePositions set_orientation self f trace].
  rewrite Hc, Hact.
  rewrite (index_from_end_app pre [n; h; wd] 2 h) by (simpl; auto; lia).
  rewrite (index_from_end_app pre [n; h; wd] 1 wd) by (simpl; auto; lia).
  assert (Hlen : (2 <? length (pre ++ [n; h; wd]))%nat = true).
  { apply Nat.ltb_lt. rewrite length_app. simpl. lia. }
  rewrite Hlen.
  rewrite (index_from_end_app pre [n; h; wd] 3 n) by (simpl; auto; lia).
  eexists. exists (fill_tags (seq 0 n) ∅).
  split; [reflexivity|].
  cbn [hdr axes tags spacing imagePositions orientation self f trace
       set_axes set_tags fst snd].
  split; [now destruct c|].
  split; [reflexivity|].
  split; [apply fill_tags_seq|].
  repeat split.
Qed.

Lemma set_tags_uses_last_three_extents_witness :
  exists w' m,
    _set_tags [] (NDArray [5; 2; 4; 6; 3]%nat uint8 [])
      (World ∅ (set_color true empty_header) (open_bytes []) [])
    = (Ok tt, w') /\
    axes (hdr w') = Some (expected_axes true (Some 2%nat) 4 6) /\
    tags (hdr w') = Some (TagsDict m) /\
    (forall j, m !! j = if (j <? 2)%nat then Some [0] else None) /\
    spacing (hdr w') = Some (1, 1, 1)%Q /\
    imagePositions (hdr w') = Some {[ 0%nat := [0; 0; 0] ]} /\
    orientation (hdr w') = Some [0; 1; 0; -1; 0; 0] /\
    self w' = ∅ /\ f w' = open_bytes [] /\ trace w' = [].
Proof.
  apply (set_tags_uses_last_three_extents
           [] (NDArray [5; 2; 4; 6; 3]%nat uint8 [])
           (World ∅ (set_color true empty_header) (open_bytes []) [])
           true [5%nat] 2 4 6 3).
  - reflexivity.
  - reflexivity.
Defined.

(** X16. For an array with exactly two extents beside the colour,
    [_set_tags] derives a row and a column axis (and the colour axis when
    the header says colour) and no slice axis, and the tag table has the
    single entry 0. *)
Theorem set_tags_of_one_image il si w c h wd k :
  color (hdr w) = Some c ->
  shape si = ([h; wd] ++ (if c then [k] else []))%list ->
  exists w' m,
    _set_tags il si w = (Ok tt, w') /\
    axes (hdr w') = Some (expected_axes c None h wd) /\
    tags (hdr w') = Some (TagsDict m) /\
    (forall j, m !! j = if (j =? 0)%nat then Some [0] else None).
Proof.
  intros Hc Hs.
  pose proof (actual_shape_of c _ k _ Hs) as Hact.
  unfold _set_tags.
  unfold bind, modify_hdr, get_hdr, lift, ret, raise.
  cbn [hdr color set_spacing set_imagePositions set_orientation self f trace].
  rewrite Hc, Hact.
  eexists. exists (fill_tags (seq 0 1) ∅).
  split; [reflexivity|].
  cbn [hdr axes tags set_axes set_tags fst snd].
  split; [now destruct c|].
  split; [reflexivity|].
  intros j. rewrite fill_tags_seq. now destruct j.
Qed.

Lemma set_tags_of_one_image_witness :
  exists w' m,
    _set_tags [] (NDArray [4; 6; 3]%nat uint8 [])
      (World ∅ (set_color true empty_header) (open_bytes []) [])
    = (Ok tt, w') /\
    axes (hdr w') = Some (expected_axes true None 4 6) /\
    tags (hdr w') = Some (TagsDict m) /\
    (forall j, m !! j = if (j =? 0)%nat then Some [0] else None).
Proof.
  apply (set_tags_of_one_image
           [] (NDArray [4; 6; 3]%nat uint8 [])
           (World ∅ (set_color true empty_header) (open_bytes []) [])
           true 4 6 3).
  - reflexivity.
  - reflexivity.
Defined.

(** X17. With fewer than two extents beside the colour, [_set_tags]
    raises [IndexError] at [_actual_shape[-2]], after it has already
    reset spacing, position and orientation; the axes are not written. *)
Theorem set_tags_needs_two_extents il si w c :
  color (hdr w) = Some c ->
  (length (if c then removelast (shape si) else shape si) < 2)%nat ->
  raised (fst (_set_tags il si w)) = Some IndexError
  /\ spacing (hdr (snd (_set_tags il si w))) = Some (1, 1, 1)%Q
  /\ orientation (hdr (snd (_set_tags il si w))) = Some [0; 1; 0; -1; 0; 0]
  /\ axes (hdr (snd (_set_tags il si w))) = axes (hdr w).
Proof.
  intros Hc Hlen.
  unfold _set_tags.
  unfold bind, modify_hdr, get_hdr, lift, ret, raise.
  cbn [hdr color set_spacing set_imagePositions set_orientation self f trace].
  rewrite Hc.
  set (sh := if c then removelast (shape si) else shape si) in *.
  assert (Hidx : index_from_end sh 2
                 = Raise (Exn IndexError "tuple index out of range")).
  { unfold index_from_end. destruct (Nat.leb_spec 2 (length sh)); [lia|].
    reflexivity. }
  rewrite !Hidx. cbn. repeat split; reflexivity.
Qed.

Lemma set_tags_needs_two_extents_witness :
  raised (fst (_set_tags [] (NDArray [4; 3]%nat uint8 [])
                 (World ∅ (set_color true empty_header) (open_bytes []) [])))
  = Some IndexError
  /\ spacing (hdr (snd (_set_tags [] (NDArray [4; 3]%nat uint8 [])
                 (World ∅ (set_color true empty_header) (open_bytes []) []))))
     = Some (1, 1, 1)%Q
  /\ orientation (hdr (snd (_set_tags [] (NDArray [4; 3]%nat uint8 [])
                 (World ∅ (set_color true empty_header) (open_bytes []) []))))
     = Some [0; 1; 0; -1; 0; 0]
  /\ axes (hdr (snd (_set_tags [] (NDArray [4; 3]%nat uint8 [])
                 (World ∅ (set_color true empty_header) (open_bytes []) []))))
     = axes (set_color true empty_header).
Proof.
  apply (set_tags_needs_two_extents
           [] (NDArray [4; 3]%nat uint8 [])
           (World ∅ (set_color true empty_header) (open_bytes []) []) true).
  - reflexivity.
  - simpl. lia.
Defined.

(** ** What an option value can hold *)

Lemma contains_rev_app c s1 : forall s2,
  contains c (String.rev_app s1 s2) = contains c s1 || contains c s2.
Proof.
  induction s1 as [|x s1 IH]; intros s2; simpl; [reflexivity|].
  rewrite IH. simpl.
  destruct (Ascii.eqb x c), (contains c s1), (contains c s2); reflexivity.
Qed.

Lemma contains_rev c s : contains c (String.rev s) = contains c s.
Proof. unfold String.rev. rewrite contains_rev_app. apply orb_false_r. Qed.

(** No piece of a split holds the separator, and a piece holds no
    character that the split text does not hold. *)
Lemma split_go_pieces sep c s : forall cur piece,
  In piece (split_go sep cur s) ->
  (contains sep cur = false -> contains sep piece = false)
  /\ (contains c piece = true -> contains c cur || contains c s = true).
Proof.
  induction s as [|x s IH]; intros cur piece Hin; simpl in Hin.
  - destruct Hin as [<-|[]]. rewrite !contains_rev. simpl.
    rewrite orb_false_r. auto.
  - destruct (Ascii.eqb_spec x sep) as [->|Hne].
    + destruct Hin as [<-|Hin].
      * rewrite !contains_rev. split; [auto|].
        intros H. rewrite H. reflexivity.
      * destruct (IH _ _ Hin) as [H1 H2]. split; [auto|].
        intros H. apply H2 in H. simpl in *.
        rewrite H. rewrite !orb_true_r. reflexivity.
    + destruct (IH _ _ Hin) as [H1 H2]. simpl in *. split.
      * intros Hc. apply H1. apply Ascii.eqb_neq in Hne. now rewrite Hne.
      * intros H. apply H2 in H.
        destruct (Ascii.eqb x c), (contains c cur), (contains c s);
          simpl in *; auto.
Qed.

Lemma split_piece_free sep s piece :
  In piece (split sep s) -> contains sep piece = false.
Proof. intros H. now apply (split_go_pieces sep sep s "" piece H). Qed.

Lemma split_piece_chars sep c s piece :
  In piece (split sep s) -> contains c s = false -> contains c piece = false.
Proof.
  intros H Hs. destruct (contains c piece) eqn:E; [|reflexivity].
  apply (split_go_pieces sep c s "" piece H) in E. simpl in E. congruence.
Qed.

Lemma last_value_In k exprs v :
  last_value k exprs = Some v ->
  exists e, In e exprs /\ entry_value_for k e = Some v.
Proof.
  induction exprs as [|e exprs IH]; simpl; [discriminate|].
  destruct (last_value k exprs) as [v'|].
  - intros H. destruct (IH H) as (e' & Hin & He). eauto.
  - intros H. eauto.
Qed.

(** X18. A value can hold neither a comma nor an equals sign: whenever
    the loop has run through, an attribute either is what it was before,
    or is a text free of [','] and ['=']. *)
Theorem parse_pdfopt_values_have_no_separator s w k v :
  forallb accepted_entry (entries s) = true ->
  self (snd (parse_pdfopt (pdfopt s) w)) !! k = Some v ->
  self w !! k = Some v
  \/ exists text, v = PStr text /\
       contains "," text = false /\ contains "=" text = false.
Proof.
  intros Hacc Hk. rewrite parse_pdfopt_string in Hk.
  pose proof (for_each_set_option_spec (entries s) w) as H.
  rewrite Hacc in H. rewrite H in Hk. simpl in Hk.
  rewrite fold_apply_entry_lookup in Hk.
  destruct (last_value k (entries s)) as [text|] eqn:El; [|now left].
  right. exists text. inversion Hk; subst. split; [reflexivity|].
  destruct (last_value_In _ _ _ El) as (e & Hin & He).
  unfold entry_value_for in He.
  destruct (split "=" e) as [|a [|b [|c l]]] eqn:Es; try discriminate.
  destruct (String.eqb a k); [|discriminate]. inversion He; subst b.
  assert (Hpiece : In text (split "=" e)) by (rewrite Es; right; now left).
  split.
  - apply (split_piece_chars "=" "," e text Hpiece).
    unfold entries in Hin.
    destruct (String.eqb s ""); [destruct Hin|].
    now apply (split_piece_free "," s e).
  - now apply (split_piece_free "=" e text).
Qed.

Lemma parse_pdfopt_values_have_no_separator_witness :
  self (fresh_world []) !! "dpi" = Some (PStr "300")
  \/ exists text, PStr "300" = PStr text /\
       contains "," text = false /\ contains "=" text = false.
Proof.
  apply (parse_pdfopt_values_have_no_separator
           "dpi=300,rotate=90" (fresh_world []) "dpi" (PStr "300")).
  - vm_compute. reflexivity.
  - vm_compute. reflexivity.
Defined.

(** ** The availability flag *)

(** X19. Lines 36-42 never record [False]: when the call of [pdfinfo]
    returns, the flag is [True] whatever the exit code, and when it raises
    [OSError], whatever its [errno], the handler stops at the name [errno],
    which the module does not import, so that the import of the package
    fails with [NameError]. *)
Theorem probe_never_records_false o :
  probe o <> FlagRecorded false
  /\ probe o = match o with
               | CallReturns _ => FlagRecorded true
               | CallRaisesOSError _ =>
                   ImportRaises "NameError" "name 'errno' is not defined"
               end.
Proof. destruct o; split; (discriminate || reflexivity). Qed.

(** ** The option dictionary and the encapsulation branch *)

Lemma parse_pdfopt_depends_on_pdfopt opts1 opts2 w :
  opts1 !! "pdfopt" = opts2 !! "pdfopt"
  \/ (pdfopt_is_false opts1 = true /\ pdfopt_is_false opts2 = true) ->
  parse_pdfopt opts1 w = parse_pdfopt opts2 w.
Proof.
  unfold parse_pdfopt, pdfopt_is_false. intros [H|[H1 H2]].
  - now rewrite H.
  - destruct (opts1 !! "pdfopt") as [v1|], (opts2 !! "pdfopt") as [v2|];
      try (apply negb_true_iff in H1; rewrite H1);
      try (apply negb_true_iff in H2; rewrite H2); reflexivity.
Qed.

(** X20. The read looks at no option but [pdfopt]: two option
    dictionaries with the same [pdfopt] give the same read, and a
    [pdfopt] that is missing, [None] or empty is no [pdfopt] at all. *)
Theorem read_image_only_looks_at_pdfopt env opts1 opts2 w :
  opts1 !! "pdfopt" = opts2 !! "pdfopt"
  \/ (pdfopt_is_false opts1 = true /\ pdfopt_is_false opts2 = true) ->
  _read_image env opts1 w = _read_image env opts2 w.
Proof.
  intros H. unfold _read_image, resolve_options.
  destruct (POPPLER_INSTALLED env); [|reflexivity]. simpl.
  unfold bind at 1 2 3. unfold bind at 2 3 4.
  rewrite !setattr_eq.
  unfold bind at 1 2.
  now rewrite (parse_pdfopt_depends_on_pdfopt opts1 opts2 _ H).
Qed.

Lemma read_image_only_looks_at_pdfopt_witness :
  _read_image (demo_env true [page_2x1])
    {[ "pdfopt" := PStr "" ]} (fresh_world [x25; x50])
  = _read_image (demo_env true [page_2x1])
      {[ "serdes" := PInt 1 ]} (fresh_world [x25; x50]).
Proof.
  apply (read_image_only_looks_at_pdfopt (demo_env true [page_2x1])
           {[ "pdfopt" := PStr "" ]} {[ "serdes" := PInt 1 ]}
           (fresh_world [x25; x50])).
  right. split; vm_compute; reflexivity.
Defined.

(** X21. In encapsulation mode the read consumes the file to its end,
    asks for a temporary name and for the time and calls nothing else,
    writes [DicomHeaderDict] and the tag list [[[0]]] and no other field
    of the header, and leaves the instance as the resolver left it.  In
    the data set the study and content dates agree, as do the two times,
    and the preamble is 128 zero bytes. *)
Theorem read_image_encapsulation_effects env opts w d r :
  POPPLER_INSTALLED env = true ->
  settings_after opts w = Some (d, r, true) ->
  exists ds w',
    _read_image env opts w = (Ok (InfoHdr, None), w') /\
    f w' = at_end (f w) /\
    trace w' = (trace w ++ [EvNamedTemporaryFile ".dcm"; EvDatetimeNow])%list /\
    self w' = self (snd (resolve_options opts w)) /\
    DicomHeaderDict (hdr w') = Some [[(PNone, PNone, ds)]] /\
    tags (hdr w') = Some (TagsList [TagArr [0]]) /\
    (spacing (hdr w'), photometricInterpretation (hdr w'), color (hdr w'),
     imagePositions (hdr w'), orientation (hdr w'), axes (hdr w'))
    = (spacing (hdr w), photometricInterpretation (hdr w), color (hdr w),
       imagePositions (hdr w), orientation (hdr w), axes (hdr w)) /\
    StudyDate ds = ContentDate ds /\ StudyTime ds = ContentTime ds /\
    preamble ds = repeat x00 128 /\
    filename ds = NamedTemporaryFile_name env ".dcm".
Proof.
  intros Hp Hs.
  destruct (read_image_by_settings env _ _ _ _ _ Hp Hs)
    as (w1 & (Hh & Hf & Ht) & _ & Hsnd & ->).
  rewrite Hsnd.
  destruct w1 as [s1 h1 fl1 t1]. simpl in Hh, Hf, Ht. subst h1 fl1 t1.
  unfold encapsulate_branch, generate_dicom_from_pdf, bind, emit, f_read,
    modify_hdr, ret, at_end.
  cbn [self hdr f trace].
  eexists. eexists. split; [reflexivity|].
  cbn [self hdr f trace DicomHeaderDict tags spacing photometricInterpretation
       color imagePositions orientation axes set_tags set_DicomHeaderDict
       StudyDate ContentDate StudyTime ContentTime preamble filename].
  rewrite <- app_assoc. repeat split.
Qed.

Lemma read_image_encapsulation_effects_witness :
  exists ds w',
    _read_image (demo_env true [page_2x1]) (pdfopt "encapsulate=ON")
      (fresh_world [x25; x50]) = (Ok (InfoHdr, None), w') /\
    f w' = at_end (open_bytes [x25; x50]) /\
    trace w' = [EvNamedTemporaryFile ".dcm"; EvDatetimeNow] /\
    self w' = self (snd (resolve_options (pdfopt "encapsulate=ON")
                           (fresh_world [x25; x50]))) /\
    DicomHeaderDict (hdr w') = Some [[(PNone, PNone, ds)]] /\
    tags (hdr w') = Some (TagsList [TagArr [0]]) /\
    (spacing (hdr w'), photometricInterpretation (hdr w'), color (hdr w'),
     imagePositions (hdr w'), orientation (hdr w'), axes (hdr w'))
    = (None, None, None, None, None, None) /\
    StudyDate ds = ContentDate ds /\ StudyTime ds = ContentTime ds /\
    preamble ds = repeat x00 128 /\
    filename ds = "/tmp/tmpq3x1.dcm".
Proof.
  apply (read_image_encapsulation_effects
           (demo_env true [page_2x1]) (pdfopt "encapsulate=ON")
           (fresh_world [x25; x50]) 150 0).
  - reflexivity.
  - vm_compute. reflexivity.
Defined.

(** ** The unavailable renderer (C10) *)

Example import_without_pdfinfo :
  import_then_read (CallRaisesOSError ENOENT) (demo_env true [page_2x1])
    (pdfopt "encapsulate=true") (fresh_world [x25; x50])
  = ImportFailed "NameError" "name 'errno' is not defined".
Proof. reflexivity. Qed.

(** C10, on the code: when the renderer is unavailable the call of
    [pdfinfo] raises [OSError], and the handler of line 42 stops at the
    name [errno], which [__init__.py] does not import: the package fails
    to import with [NameError] and no read takes place, in encapsulation
    mode or any other, so that the renderer-not-installed error of line 72
    is not what the program gives.  Whenever a read does take place, the
    call has returned and the read runs with the flag true. *)
Theorem C10_unavailable_renderer_stops_the_import o env opts w :
  match import_then_read o env opts w with
  | ImportFailed exception message =>
      (exists errno, o = CallRaisesOSError errno) /\
      exception = "NameError" /\ message = "name 'errno' is not defined"
  | ReadDone r =>
      (exists exit_code, o = CallReturns exit_code) /\
      r = _read_image (set_installed true env) opts w
  end.
Proof.
  unfold import_then_read. destruct o as [exit_code|errno].
  - change (probe (CallReturns exit_code)) with (FlagRecorded true).
    split; [now exists exit_code | reflexivity].
  - change (probe (CallRaisesOSError errno))
      with (ImportRaises "NameError" "name 'errno' is not defined").
    split; [now exists errno | split; reflexivity].
Qed.
